(** * Recipe API views: a shallow embedding of [app/recipe/views.py]

    The views are thin adapters over an ORM collection type.  The
    embedding below follows the source line by line:

    - Python values that the views touch ([str], [int], [None]) and the
      two builtins they call ([str.split] and [int]);
    - the request ([query_params], [user], [data]);
    - the persisted rows and the queryset operations the views chain
      ([filter], [order_by], [distinct]);
    - [RecipeViewSet] and [BaseRecipeAttrViewSet] with its two concrete
      subclasses;
    - the properties of the views, one theorem each. *)

From Stdlib Require Import ZArith Ascii String List Sorted.
From stdpp Require Import base decidable option list sorting gmap strings.

Local Open Scope Z_scope.
Local Open Scope string_scope.

(* ===================================================================== *)
(** ** Exceptions and the error monad *)
(* ===================================================================== *)

(** The exceptions that can leave the code of the views.  [ValueError]
    carries the literal that [int] rejected; [Http404] and
    [MultipleObjectsReturned] are what [get_object] raises when the
    queryset has no row, or more than one, for a primary key;
    [IntegrityError] is the database refusing a row without owner. *)
Inductive exn : Type :=
  | ValueError (literal : string)
  | Http404
  | MultipleObjectsReturned
  | IntegrityError.

Inductive result (A : Type) : Type :=
  | Ok (a : A)
  | Raise (e : exn).
Arguments Ok {A} a.
Arguments Raise {A} e.

Definition bind {A B} (m : result A) (k : A -> result B) : result B :=
  match m with
  | Ok a => k a
  | Raise e => Raise e
  end.

Declare Scope result_scope.
Delimit Scope result_scope with result.
Notation "'let!' x ':=' m 'in' k" :=
  (bind m (fun x => k))
  (at level 10, x name, m at level 100, k at level 200) : result_scope.
Local Open Scope result_scope.

(** A list comprehension whose body may raise: elements are evaluated
    left to right and the first exception wins. *)
Fixpoint comprehension {A B} (f : A -> result B) (l : list A)
  : result (list B) :=
  match l with
  | [] => Ok []
  | x :: l' =>
      let! y := f x in
      let! ys := comprehension f l' in
      Ok (y :: ys)
  end.

Definition raises {A} (m : result A) : Prop :=
  match m with
  | Ok _ => False
  | Raise _ => True
  end.

(* ===================================================================== *)
(** ** Python builtins used by the views *)
(* ===================================================================== *)

Module Py.

(** The values that reach [int] in the views: a query-string value
    (always a [str]) or the literal default [0]. *)
Inductive value : Type :=
  | Str (s : string)
  | Int (n : Z).

#[global] Instance value_eq_dec : EqDecision value.
Proof. solve_decision. Defined.

(** [s.split(sep)] for a one-character separator: a string with n
    separators has n+1 pieces, empty pieces included; the empty string
    splits into one empty piece. *)
Fixpoint split (sep : ascii) (s : string) : list string :=
  match s with
  | EmptyString => [EmptyString]
  | String c s' =>
      if Ascii.eqb c sep then EmptyString :: split sep s'
      else match split sep s' with
           | [] => [String c EmptyString]
           | piece :: pieces => String c piece :: pieces
           end
  end.

(** Truth value of a str-or-None: [None] and [''] are false. *)
Definition truthy (o : option string) : bool :=
  match o with
  | None => false
  | Some EmptyString => false
  | Some (String _ _) => true
  end.

(** [bool(n)] for an int. *)
Definition bool_of_int (n : Z) : bool := negb (n =? 0)%Z.

(** *** [int(s)] in base 10

    Grammar accepted by the interpreter for an ASCII string:
    optional white space, an optional sign, one or more decimal
    digits where single underscores may separate digits, optional
    white space, end of string.  Everything else is a [ValueError].
    Strings are byte strings here; a character outside ASCII is
    neither a digit nor white space in this model, and the cap that
    recent interpreters put on the number of digits is left out. *)

Definition is_space (c : ascii) : bool :=
  let n := nat_of_ascii c in
  (Nat.eqb n 32 || (Nat.leb 9 n && Nat.leb n 13))%bool.

Definition digit_value (c : ascii) : option Z :=
  let n := nat_of_ascii c in
  if (Nat.leb 48 n && Nat.leb n 57)%bool
  then Some (Z.of_nat n - 48)%Z else None.

Definition is_underscore (c : ascii) : bool := Ascii.eqb c "_"%char.

Fixpoint skip_spaces (s : string) : string :=
  match s with
  | String c s' => if is_space c then skip_spaces s' else s
  | EmptyString => s
  end.

(** What the scanner has just read. *)
Inductive scan_state : Type := AtStart | AfterDigit | AfterUnderscore.

(** Where the digit run may stop: not before the first digit and not
    right after an underscore. *)
Definition stop (st : scan_state) (acc : Z) (rest : string)
  : option (Z * string) :=
  match st with
  | AfterDigit => Some (acc, rest)
  | AtStart | AfterUnderscore => None
  end.

(** Reads digits and underscores; an underscore is refused at the
    start and after another underscore. *)
Fixpoint scan_digits (st : scan_state) (acc : Z) (s : string)
  : option (Z * string) :=
  match s with
  | EmptyString => stop st acc s
  | String c s' =>
      if is_underscore c then
        match st with
        | AfterDigit => scan_digits AfterUnderscore acc s'
        | AtStart | AfterUnderscore => None
        end
      else
        match digit_value c with
        | Some d => scan_digits AfterDigit (10 * acc + d)%Z s'
        | None => stop st acc s
        end
  end.

Definition read_sign (s : string) : Z * string :=
  match s with
  | String "+"%char s' => (1%Z, s')
  | String "-"%char s' => ((-1)%Z, s')
  | _ => (1%Z, s)
  end.

Definition int_of_str (s : string) : result Z :=
  let (sign, body) := read_sign (skip_spaces s) in
  match scan_digits AtStart 0 body with
  | Some (n, rest) =>
      match skip_spaces rest with
      | EmptyString => Ok (sign * n)%Z
      | String _ _ => Raise (ValueError s)
      end
  | None => Raise (ValueError s)
  end.

(** [int(v)]: an int is returned as it is, a str is parsed. *)
Definition int (v : value) : result Z :=
  match v with
  | Int n => Ok n
  | Str s => int_of_str s
  end.

End Py.


(* ===================================================================== *)
(** ** The request *)
(* ===================================================================== *)

(** [request.query_params] is a multi-valued dictionary: the pairs of the
    query string in the order they were written, a key possibly more than
    once. *)
Definition QueryDict : Type := list (string * string).

(** [q.get(key)]: the last value given for the key, [None] when the key
    is absent. *)
Definition QueryDict_get (key : string) (q : QueryDict) : option string :=
  last (snd <$> filter (λ kv, kv.1 = key) q).

(** [q.get(key, default)]. *)
Definition QueryDict_get_default (key : string) (default : Py.value)
    (q : QueryDict) : Py.value :=
  match QueryDict_get key q with
  | Some s => Py.Str s
  | None => default
  end.

(** A request that passed [TokenAuthentication] and [IsAuthenticated]:
    [user] is the primary key of the authenticated user, [data] the parsed
    payload. *)
Record Request : Type := {
  query_params : QueryDict;
  user : Z;
  data : gmap string Py.value
}.

(* ===================================================================== *)
(** ** Persisted rows *)
(* ===================================================================== *)

(** Modelled from the spec: the declarations of [core.models] are not part
    of the sources.  A recipe belongs to exactly one user, carries an
    image, and is linked to tags and ingredients through many-to-many
    relations; its remaining columns are kept as a dictionary. *)
Record Recipe : Type := {
  recipe_id : Z;
  recipe_user : Z;
  recipe_image : option string;
  recipe_fields : gmap string Py.value
}.

(** Modelled from the spec: a recipe attribute (a tag or an ingredient)
    belongs to exactly one user and has a name. *)
Record Attr : Type := {
  attr_id : Z;
  attr_user : Z;
  attr_name : string
}.

(** A row of the table behind a many-to-many relation. *)
Record Link : Type := {
  link_recipe : Z;
  link_attr : Z
}.

#[global] Instance Recipe_eq_dec : EqDecision Recipe.
Proof. solve_decision. Defined.
#[global] Instance Attr_eq_dec : EqDecision Attr.
Proof. solve_decision. Defined.
#[global] Instance Link_eq_dec : EqDecision Link.
Proof. solve_decision. Defined.

Record Database : Type := {
  db_recipes : list Recipe;
  db_tags : list Attr;
  db_ingredients : list Attr;
  db_recipe_tags : list Link;
  db_recipe_ingredients : list Link
}.

(* ===================================================================== *)
(** ** Querysets *)
(* ===================================================================== *)

(** A queryset is evaluated to the list of rows its SELECT returns: a
    join over a multi-valued relation repeats the row once per related
    row, [order_by] sorts and [distinct] keeps one copy of each row. *)
Module QuerySet.
Section ops.
Context {Row : Type} `{EqDecision Row}.

(** The join the ORM sets up for a lookup that spans a many-to-many
    relation: every row paired with each of its links, or with no
    link at all. *)
Definition join (pk : Row -> Z) (side : Link -> Z) (links : list Link)
    (qs : list Row) : list (Row * option Link) :=
  r ← qs;
  match filter (λ l, side l = pk r) links with
  | [] => [(r, None)]
  | ls => (λ l, (r, Some l)) <$> ls
  end.

(** The condition [<relation>.id IN ids] on a joined row; it is not
    met by a row without link. *)
Definition related_id_in (other : Link -> Z) (ids : list Z)
    (o : option Link) : Prop :=
  match o with
  | Some l => other l ∈ ids
  | None => False
  end.

#[global] Instance related_id_in_dec other ids o :
  Decision (related_id_in other ids o).
Proof. destruct o; simpl; apply _. Defined.

(** [qs.filter(<relation>__id__in=ids)]. *)
Definition filter_id_in (pk : Row -> Z) (side other : Link -> Z)
    (links : list Link) (ids : list Z) (qs : list Row) : list Row :=
  fst <$> filter (λ p, related_id_in other ids p.2)
                 (join pk side links qs).

(** [qs.filter(<relation>__isnull=False)]. *)
Definition filter_isnull_false (pk : Row -> Z) (side : Link -> Z)
    (links : list Link) (qs : list Row) : list Row :=
  fst <$> filter (λ p, is_Some p.2) (join pk side links qs).

(** [qs.filter(user=u)]. *)
Definition filter_user (owner : Row -> Z) (u : Z) (qs : list Row)
    : list Row :=
  filter (λ r, owner r = u) qs.

(** [qs.order_by('-<column>')]: descending in the column. *)
Definition order_by_desc {K : Type} (le : relation K)
    `{∀ x y, Decision (le x y)} (column : Row -> K) (qs : list Row)
    : list Row :=
  merge_sort (λ a b, le (column b) (column a)) qs.

(** [qs.distinct()]. *)
Definition distinct (qs : list Row) : list Row := remove_dups qs.

End ops.
End QuerySet.

(** Order of the [name] column: code point order of the characters. *)
Definition name_le (a b : string) : Prop := String.leb a b = true.

#[global] Instance name_le_dec (a b : string) : Decision (name_le a b).
Proof. unfold name_le. apply _. Defined.

(* ===================================================================== *)
(** ** Responses, serializers and the generic view machinery *)
(* ===================================================================== *)

Inductive Body : Type :=
  | Rows (rows : list (gmap string Py.value))
  | Object (fields : gmap string Py.value)
  | Errors (messages : gmap string (list string))
  | Detail (message : string).

Record Response : Type := {
  body : Body;
  status : Z
}.

Definition HTTP_200_OK : Z := 200.
Definition HTTP_201_CREATED : Z := 201.
Definition HTTP_400_BAD_REQUEST : Z := 400.
Definition HTTP_404_NOT_FOUND : Z := 404.
Definition HTTP_500_INTERNAL_SERVER_ERROR : Z := 500.

(** How a request ends: the view returned a response, or an exception
    left the view and no handler of the REST layer took it. *)
Inductive Outcome : Type :=
  | Returned (r : Response)
  | Uncaught (e : exn).

(** The exception handler of the REST layer turns [Http404] (and its own
    API exceptions, none of which the views raise) into a response; any
    other exception is raised again. *)
Definition handle_exception (e : exn) : Outcome :=
  match e with
  | Http404 =>
      Returned {| body := Detail "Not found."; status := HTTP_404_NOT_FOUND |}
  | ValueError _ | IntegrityError | MultipleObjectsReturned => Uncaught e
  end.

(** The status line the client sees: an uncaught exception is answered
    by the server with 500. *)
Definition http_status (o : Outcome) : Z :=
  match o with
  | Returned r => status r
  | Uncaught _ => HTTP_500_INTERNAL_SERVER_ERROR
  end.

Definition is_client_error (code : Z) : bool :=
  ((400 <=? code) && (code <=? 499))%Z.

Inductive SerializerClass : Type :=
  | RecipeSerializer
  | RecipeDetailSerializer
  | RecipeImageSerializer
  | TagSerializer
  | IngredientSerializer.

Inductive Validation : Type :=
  | Valid (validated_data : gmap string Py.value)
  | Invalid (errors : gmap string (list string)).

(** The classes of [recipe.serializers] are not part of the sources.  The
    views reach them through two operations: validation of a payload,
    which yields the validated data or the messages per field, and the
    representation of a row. *)
Class Serializers : Type := {
  run_validation : SerializerClass -> gmap string Py.value -> Validation;
  to_representation : SerializerClass -> Recipe -> gmap string Py.value;
  attr_to_representation : SerializerClass -> Attr -> gmap string Py.value
}.

(** A serializer object as [get_serializer(instance, data=...)] builds
    it. *)
Record Serializer : Type := {
  ser_class : SerializerClass;
  ser_instance : option Recipe;
  ser_initial_data : gmap string Py.value
}.

(** A write that reached the database. *)
Inductive Event : Type :=
  | Saved (row : Recipe).

Module Model.

(** [setattr(instance, attr, value)] for every validated attribute; the
    primary key is read-only. *)
Definition assign (attrs : gmap string Py.value) (r : Recipe) : Recipe :=
  {| recipe_id := recipe_id r;
     recipe_user := match attrs !! "user" with
                    | Some (Py.Int u) => u
                    | _ => recipe_user r
                    end;
     recipe_image := match attrs !! "image" with
                     | Some (Py.Str file) => Some file
                     | _ => recipe_image r
                     end;
     recipe_fields :=
       delete "user" (delete "image" attrs) ∪ recipe_fields r |}.

(** [instance.save()] on a stored row: the row with that primary key is
    replaced. *)
Definition save (r : Recipe) (db : Database) : Database :=
  {| db_recipes :=
       (λ x, if decide (recipe_id x = recipe_id r) then r else x)
         <$> db_recipes db;
     db_tags := db_tags db;
     db_ingredients := db_ingredients db;
     db_recipe_tags := db_recipe_tags db;
     db_recipe_ingredients := db_recipe_ingredients db |}.

(** The next value of the primary key sequence. *)
Definition next_id (db : Database) : Z :=
  1 + foldr Z.max 0 (recipe_id <$> db_recipes db).

Definition insert (r : Recipe) (db : Database) : Database :=
  {| db_recipes := db_recipes db ++ [r];
     db_tags := db_tags db;
     db_ingredients := db_ingredients db;
     db_recipe_tags := db_recipe_tags db;
     db_recipe_ingredients := db_recipe_ingredients db |}.

End Model.

Module Rest.

(** Modelled from the spec: [create] of the recipe serializer is not
    part of the sources.  It stores a new row built from the validated
    data, whose [user] entry becomes the owner; the database refuses a
    row without owner. *)
Definition create (validated_data : gmap string Py.value) (db : Database)
    : result (Recipe * Database) :=
  match validated_data !! "user" with
  | Some (Py.Int u) =>
      let r := Model.assign (delete "user" validated_data)
                 {| recipe_id := Model.next_id db;
                    recipe_user := u;
                    recipe_image := None;
                    recipe_fields := ∅ |} in
      Ok (r, Model.insert r db)
  | _ => Raise IntegrityError
  end.

(** [update] of a model serializer: assign the validated attributes and
    save the row. *)
Definition update (r : Recipe) (validated_data : gmap string Py.value)
    (db : Database) : Recipe * Database :=
  let r' := Model.assign validated_data r in
  (r', Model.save r' db).

(** [serializer.save] with keyword arguments, after a successful
    validation: the
    keyword arguments are merged over the validated data, then the
    instance is updated, or created when there is none.  The saved
    instance is returned. *)
Definition save (kwargs : gmap string Py.value) (s : Serializer)
    (validated_data : gmap string Py.value) (db : Database)
    : result (Recipe * Database) :=
  let validated_data := kwargs ∪ validated_data in
  match ser_instance s with
  | Some r => Ok (update r validated_data db)
  | None => create validated_data db
  end.

(** [get_object()]: the row of the view's queryset with the primary key
    of the URL. *)
Definition get_object (queryset : result (list Recipe)) (pk : Z)
    : result Recipe :=
  let! qs := queryset in
  match filter (λ r, recipe_id r = pk) qs with
  | [] => Raise Http404
  | [r] => Ok r
  | _ :: _ :: _ => Raise MultipleObjectsReturned
  end.

(** The [list] action of [ListModelMixin]: the rows of the view's
    queryset, each in its representation, with status 200. *)
Definition list {Row : Type} (represent : Row -> gmap string Py.value)
    (queryset : result (list Row)) : Outcome :=
  match queryset with
  | Ok qs =>
      Returned {| body := Rows (represent <$> qs); status := HTTP_200_OK |}
  | Raise e => handle_exception e
  end.

End Rest.

(* ===================================================================== *)
(** ** RecipeViewSet *)
(* ===================================================================== *)

Module RecipeViewSet.

Definition serializer_class : SerializerClass := RecipeDetailSerializer.

(** [queryset = Recipe.objects.all()] *)
Definition queryset (db : Database) : list Recipe := db_recipes db.

(** Convert a list of string IDs to a list of integers. *)
Definition params_to_int (qs : string) : result (list Z) :=
  comprehension Py.int_of_str (Py.split "," qs).

(** Retrieve recipes for authenticated user. *)
Definition get_queryset (request : Request) (db : Database)
    : result (list Recipe) :=
  let tags := QueryDict_get "tags" (query_params request) in
  let ingredients := QueryDict_get "ingredients" (query_params request) in
  let qs := queryset db in
  let! qs :=
    if Py.truthy tags then
      let! tag_ids := params_to_int (default "" tags) in
      Ok (QuerySet.filter_id_in recipe_id link_recipe link_attr
            (db_recipe_tags db) tag_ids qs)
    else Ok qs in
  let! qs :=
    if Py.truthy ingredients then
      let! ingredient_ids := params_to_int (default "" ingredients) in
      Ok (QuerySet.filter_id_in recipe_id link_recipe link_attr
            (db_recipe_ingredients db) ingredient_ids qs)
    else Ok qs in
  Ok (QuerySet.distinct
        (QuerySet.order_by_desc Z.le recipe_id
           (QuerySet.filter_user recipe_user (user request) qs))).

(** Return the serializer class for request. *)
Definition get_serializer_class (action : string) : SerializerClass :=
  if decide (action = "list") then RecipeSerializer
  else if decide (action = "upload_image") then RecipeImageSerializer
  else serializer_class.

Definition get_serializer (action : string) (inst : option Recipe)
    (payload : gmap string Py.value) : Serializer :=
  {| ser_class := get_serializer_class action;
     ser_instance := inst;
     ser_initial_data := payload |}.

Section actions.
Context `{Serializers}.

(** Create a new recipe: [serializer.save(user=self.request.user)],
    for a serializer whose validation yielded [validated_data]. *)
Definition perform_create (request : Request) (serializer : Serializer)
    (validated_data : gmap string Py.value) (db : Database)
    : result (Recipe * Database) :=
  Rest.save {[ "user" := Py.Int (user request) ]} serializer
    validated_data db.

(** Upload an image to a recipe.  Returns how the request ends, the
    database afterwards and the writes that were made. *)
Definition upload_image (request : Request) (pk : Z) (db : Database)
    : Outcome * Database * list Event :=
  match Rest.get_object (get_queryset request db) pk with
  | Raise e => (handle_exception e, db, [])
  | Ok recipe =>
      let serializer :=
        get_serializer "upload_image" (Some recipe) (data request) in
      match run_validation (ser_class serializer)
              (ser_initial_data serializer) with
      | Valid validated_data =>
          match Rest.save ∅ serializer validated_data db with
          | Ok (saved, db') =>
              (Returned
                 {| body := Object (to_representation
                                      (ser_class serializer) saved);
                    status := HTTP_200_OK |},
               db', [Saved saved])
          | Raise e => (handle_exception e, db, [])
          end
      | Invalid errors =>
          (Returned {| body := Errors errors;
                       status := HTTP_400_BAD_REQUEST |},
           db, [])
      end
  end.

(** The [create] action of [CreateModelMixin] on this view: the
    payload is validated, [perform_create] stores the row, and the
    answer is its representation with status 201, or the messages of
    the validation with status 400. *)
Definition create (request : Request) (db : Database)
    : Outcome * Database * list Event :=
  let serializer := get_serializer "create" None (data request) in
  match run_validation (ser_class serializer)
          (ser_initial_data serializer) with
  | Valid validated_data =>
      match perform_create request serializer validated_data db with
      | Ok (saved, db') =>
          (Returned
             {| body := Object (to_representation
                                  (ser_class serializer) saved);
                status := HTTP_201_CREATED |},
           db', [Saved saved])
      | Raise e => (handle_exception e, db, [])
      end
  | Invalid errors =>
      (Returned {| body := Errors errors;
                   status := HTTP_400_BAD_REQUEST |},
       db, [])
  end.

(** The [list] action on this view. *)
Definition list (request : Request) (db : Database) : Outcome :=
  Rest.list (to_representation (get_serializer_class "list"))
    (get_queryset request db).

End actions.
End RecipeViewSet.

(* ===================================================================== *)
(** ** BaseRecipeAttrViewSet and its subclasses *)
(* ===================================================================== *)

(** What a subclass of the base view binds: the table of its entity, the
    relation that links the entity to recipes, and its serializer. *)
Class RecipeAttrViewSet : Type := {
  attr_queryset : Database -> list Attr;
  attr_recipe_links : Database -> list Link;
  attr_serializer_class : SerializerClass
}.

Module BaseRecipeAttrViewSet.
Section base.
Context `{RecipeAttrViewSet}.

(** Retrieve tags for authenticated user. *)
Definition get_queryset (request : Request) (db : Database)
    : result (list Attr) :=
  let! n :=
    Py.int (QueryDict_get_default "assigned_only" (Py.Int 0)
              (query_params request)) in
  let assigned_only := Py.bool_of_int n in
  let qs := attr_queryset db in
  let qs :=
    if assigned_only then
      QuerySet.filter_isnull_false attr_id link_attr
        (attr_recipe_links db) qs
    else qs in
  Ok (QuerySet.distinct
        (QuerySet.order_by_desc name_le attr_name
           (QuerySet.filter_user attr_user (user request) qs))).

(** The [list] action on this view. *)
Definition list `{Serializers} (request : Request) (db : Database)
    : Outcome :=
  Rest.list (attr_to_representation attr_serializer_class)
    (get_queryset request db).

End base.
End BaseRecipeAttrViewSet.

(** Manage tags in the database. *)
#[global] Instance TagViewSet : RecipeAttrViewSet := {|
  attr_queryset := db_tags;
  attr_recipe_links := db_recipe_tags;
  attr_serializer_class := TagSerializer
|}.

(** Manage ingredients in the database. *)
#[global] Instance IngredientViewSet : RecipeAttrViewSet := {|
  attr_queryset := db_ingredients;
  attr_recipe_links := db_recipe_ingredients;
  attr_serializer_class := IngredientSerializer
|}.

(* ===================================================================== *)
(** ** A concrete serializer configuration and sample data *)
(* ===================================================================== *)

(** Modelled from the spec: the image-only schema requires an [image];
    the other schemas take the payload as it is, without the read-only
    [id] and without [user], which is not a field of theirs. *)
Definition sample_run_validation (cls : SerializerClass)
    (payload : gmap string Py.value) : Validation :=
  match cls with
  | RecipeImageSerializer =>
      match payload !! "image" with
      | Some (Py.Str file) => Valid {[ "image" := Py.Str file ]}
      | Some (Py.Int _) =>
          Invalid {[ "image" := ["The submitted data was not a file."] ]}
      | None => Invalid {[ "image" := ["No file was submitted."] ]}
      end
  | _ => Valid (delete "id" (delete "user" payload))
  end.

Definition sample_to_representation (cls : SerializerClass) (r : Recipe)
    : gmap string Py.value :=
  let image := match recipe_image r with
               | Some file => Py.Str file
               | None => Py.Str ""
               end in
  match cls with
  | RecipeImageSerializer =>
      {[ "id" := Py.Int (recipe_id r); "image" := image ]}
  | _ => <[ "id" := Py.Int (recipe_id r) ]> (recipe_fields r)
  end.

Definition sample_attr_to_representation (cls : SerializerClass) (a : Attr)
    : gmap string Py.value :=
  {[ "id" := Py.Int (attr_id a); "name" := Py.Str (attr_name a) ]}.

Definition sample_serializers : Serializers := {|
  run_validation := sample_run_validation;
  to_representation := sample_to_representation;
  attr_to_representation := sample_attr_to_representation
|}.

Definition mk_recipe (id owner : Z) : Recipe :=
  {| recipe_id := id; recipe_user := owner;
     recipe_image := None; recipe_fields := ∅ |}.

Definition mk_link (recipe attr : Z) : Link :=
  {| link_recipe := recipe; link_attr := attr |}.

(** Two users, 1 and 2.  Recipe 10 of user 1 carries tags 1 and 2 and
    ingredient 7, recipe 11 of user 1 carries tag 3, recipe 12 of user 1
    carries nothing, recipe 20 of user 2 carries tag 5. *)
Definition sample_db : Database := {|
  db_recipes := [mk_recipe 10 1; mk_recipe 11 1; mk_recipe 12 1;
                 mk_recipe 20 2];
  db_tags := [ {| attr_id := 1; attr_user := 1; attr_name := "vegan" |};
               {| attr_id := 2; attr_user := 1; attr_name := "dessert" |};
               {| attr_id := 3; attr_user := 1; attr_name := "quick" |};
               {| attr_id := 4; attr_user := 1; attr_name := "unused" |};
               {| attr_id := 5; attr_user := 2; attr_name := "vegan" |} ];
  db_ingredients :=
    [ {| attr_id := 7; attr_user := 1; attr_name := "salt" |};
      {| attr_id := 8; attr_user := 1; attr_name := "kale" |} ];
  db_recipe_tags := [mk_link 10 1; mk_link 10 2; mk_link 11 3; mk_link 20 5];
  db_recipe_ingredients := [mk_link 10 7]
|}.

(** The sample data after user 2 replaced their recipe and their tag:
    the rows of user 1 and the two relations are as before. *)
Definition sample_db_others : Database := {|
  db_recipes := [mk_recipe 21 2; mk_recipe 10 1; mk_recipe 11 1;
                 mk_recipe 22 2; mk_recipe 12 1];
  db_tags := [ {| attr_id := 1; attr_user := 1; attr_name := "vegan" |};
               {| attr_id := 2; attr_user := 1; attr_name := "dessert" |};
               {| attr_id := 6; attr_user := 2; attr_name := "spicy" |};
               {| attr_id := 3; attr_user := 1; attr_name := "quick" |};
               {| attr_id := 4; attr_user := 1; attr_name := "unused" |} ];
  db_ingredients := db_ingredients sample_db;
  db_recipe_tags := db_recipe_tags sample_db;
  db_recipe_ingredients := db_recipe_ingredients sample_db
|}.

Definition mk_request (params : QueryDict) (u : Z) : Request :=
  {| query_params := params; user := u; data := ∅ |}.

(** A request of user 1 with a payload and no query parameters. *)
Definition image_request (payload : gmap string Py.value) : Request :=
  {| query_params := []; user := 1; data := payload |}.

(** A payload that names another user as owner, under a validation that
    lets the entry through. *)
Definition forged_data : gmap string Py.value :=
  {[ "user" := Py.Int 2; "title" := Py.Str "soup" ]}.

(* ===================================================================== *)
(** ** Vocabulary of the properties *)
(* ===================================================================== *)

(** The recipe is linked, through the relation, to one of the ids. *)
Definition linked_to (links : list Link) (ids : list Z) (r : Recipe) : Prop :=
  ∃ l, l ∈ links ∧ link_recipe l = recipe_id r ∧ link_attr l ∈ ids.

(** The attribute is referenced by at least one recipe. *)
Definition referenced (links : list Link) (a : Attr) : Prop :=
  ∃ l, l ∈ links ∧ link_attr l = attr_id a.

(** What a filter parameter of the recipe list holds: nothing (the
    parameter is absent or empty), or a list of integer ids written as
    comma-separated literals. *)
Inductive holds_ids (request : Request) (key : string)
    : option (list Z) -> Prop :=
  | holds_nothing :
      Py.truthy (QueryDict_get key (query_params request)) = false ->
      holds_ids request key None
  | holds_list (s : string) (ids : list Z) :
      QueryDict_get key (query_params request) = Some s ->
      s ≠ "" ->
      Forall2 (λ token id, Py.int_of_str token = Ok id) (Py.split "," s) ids ->
      holds_ids request key (Some ids).

(** The recipe meets a filter: no condition when nothing was asked. *)
Definition meets (links : list Link) (asked : option (list Z)) (r : Recipe)
    : Prop :=
  match asked with
  | Some ids => linked_to links ids r
  | None => True
  end.

(** The rows that are left when a filter is applied. *)
Definition apply_filter (links : list Link) (asked : option (list Z))
    (qs : list Recipe) : list Recipe :=
  match asked with
  | Some ids =>
      QuerySet.filter_id_in recipe_id link_recipe link_attr links ids qs
  | None => qs
  end.

(** A filter parameter of the request has a value, and one of the
    comma-separated tokens of the value is not an integer literal. *)
Definition has_non_integer_token (request : Request) (key : string) : Prop :=
  ∃ s token,
    QueryDict_get key (query_params request) = Some s ∧ s ≠ "" ∧
    token ∈ Py.split "," s ∧ raises (Py.int_of_str token).

(** How often a character occurs in a string. *)
Fixpoint count_char (c : ascii) (s : string) : nat :=
  match s with
  | EmptyString => 0%nat
  | String c' s' =>
      ((if Ascii.eqb c' c then 1 else 0) + count_char c s')%nat
  end.

(** One filter asks for no more than another: the other asks nothing, or
    both list ids and every id of the first is listed by the other. *)
Definition narrower (asked1 asked2 : option (list Z)) : Prop :=
  match asked2 with
  | None => True
  | Some ids2 =>
      match asked1 with
      | Some ids1 => ∀ id, id ∈ ids1 → id ∈ ids2
      | None => False
      end
  end.

(* ===================================================================== *)
(** * Properties *)
(* ===================================================================== *)

(** ** The builtins on concrete inputs *)

Example split_two : Py.split "," "1,2" = ["1"; "2"].
Proof. reflexivity. Qed.
Example split_trailing : Py.split "," "1," = ["1"; ""].
Proof. reflexivity. Qed.
Example split_empty : Py.split "," "" = [""].
Proof. reflexivity. Qed.
Example int_plain : Py.int_of_str "42" = Ok 42%Z.
Proof. reflexivity. Qed.
Example int_padded : Py.int_of_str " -7 " = Ok (-7)%Z.
Proof. reflexivity. Qed.
Example int_underscore : Py.int_of_str "1_000" = Ok 1000%Z.
Proof. reflexivity. Qed.
Example int_double_underscore : Py.int_of_str "1__0" = Raise (ValueError "1__0").
Proof. reflexivity. Qed.
Example int_word : Py.int_of_str "abc" = Raise (ValueError "abc").
Proof. reflexivity. Qed.
Example int_blank : Py.int_of_str "" = Raise (ValueError "").
Proof. reflexivity. Qed.

(** ** The views on the sample data *)

Example list_by_tags :
  recipe_id <$> default []
    (match RecipeViewSet.get_queryset
             (mk_request [("tags", "1,2")] 1) sample_db with
     | Ok qs => Some qs | Raise _ => None end) = [10].
Proof. vm_compute. reflexivity. Qed.

(** Before [distinct], the join lists recipe 10 once per matching tag. *)
Example join_repeats_rows :
  recipe_id <$> QuerySet.filter_id_in recipe_id link_recipe link_attr
                  (db_recipe_tags sample_db) [1; 2] (db_recipes sample_db)
  = [10; 10].
Proof. vm_compute. reflexivity. Qed.

Example list_all_of_user :
  recipe_id <$> default []
    (match RecipeViewSet.get_queryset (mk_request [] 1) sample_db with
     | Ok qs => Some qs | Raise _ => None end) = [12; 11; 10].
Proof. vm_compute. reflexivity. Qed.

Example list_tags_assigned :
  attr_name <$> default []
    (match BaseRecipeAttrViewSet.get_queryset (H := TagViewSet)
             (mk_request [("assigned_only", "1")] 1) sample_db with
     | Ok qs => Some qs | Raise _ => None end)
  = ["vegan"; "quick"; "dessert"].
Proof. vm_compute. reflexivity. Qed.

(* ===================================================================== *)
(** ** Facts about the error monad and the builtins *)
(* ===================================================================== *)

Lemma bind_Ok {A B} (m : result A) (k : A -> result B) (b : B) :
  bind m k = Ok b ↔ ∃ a, m = Ok a ∧ k a = Ok b.
Proof.
  destruct m as [a|e]; simpl; split.
  - eauto.
  - intros (a' & [= ->] & Hk). exact Hk.
  - discriminate.
  - intros (a' & [=] & _).
Qed.

Lemma int_of_str_error (s : string) (e : exn) :
  Py.int_of_str s = Raise e → e = ValueError s.
Proof.
  unfold Py.int_of_str.
  destruct (Py.read_sign _) as [sign body].
  destruct (Py.scan_digits _ _ _) as [[n rest]|]; [|congruence].
  destruct (Py.skip_spaces rest); congruence.
Qed.

(** A comprehension returns exactly when its body returns on every
    element. *)
Lemma comprehension_Ok {A B} (f : A -> result B) (l : list A) (ys : list B) :
  comprehension f l = Ok ys ↔ Forall2 (λ x y, f x = Ok y) l ys.
Proof.
  revert ys. induction l as [|x l IH]; intros ys; simpl.
  - split.
    + intros [= <-]. constructor.
    + intros Hall. inversion Hall. reflexivity.
  - rewrite bind_Ok. split.
    + intros (y & Hy & Hrest). apply bind_Ok in Hrest as (ys' & Hys' & [= <-]).
      constructor; [exact Hy | by apply IH].
    + intros Hall. inversion Hall as [|? y ? ys' Hy Hrest]; subst.
      exists y. split; [exact Hy|].
      apply bind_Ok. exists ys'. split; [by apply IH | reflexivity].
Qed.

(** A comprehension raises as soon as its body raises on some element,
    and what it raises was raised by the body on an element. *)
Lemma comprehension_raises {A B} (f : A -> result B) (l : list A) x :
  x ∈ l → raises (f x) → raises (comprehension f l).
Proof.
  induction l as [|x' l IH]; intros Hin Hx.
  - by apply elem_of_nil in Hin.
  - simpl. apply elem_of_cons in Hin as [->|Hin].
    + destruct (f x'); [contradiction | exact I].
    + destruct (f x'); simpl; [|exact I].
      specialize (IH Hin Hx). destruct (comprehension f l); [contradiction|exact I].
Qed.

Lemma comprehension_error {A B} (f : A -> result B) (l : list A) e :
  comprehension f l = Raise e → ∃ x, x ∈ l ∧ f x = Raise e.
Proof.
  induction l as [|x l IH]; simpl; [discriminate|].
  destruct (f x) as [y|e'] eqn:Hfx; simpl.
  - destruct (comprehension f l) as [ys|e'']; simpl; [discriminate|].
    intros [= ->]. destruct IH as (x' & Hin & Hx'); [reflexivity|].
    exists x'. split; [by apply elem_of_cons; right | exact Hx'].
  - intros [= ->]. exists x. split; [by apply elem_of_cons; left | exact Hfx].
Qed.

(* ===================================================================== *)
(** ** Facts about querysets *)
(* ===================================================================== *)

Section queryset_facts.
Context {Row : Type} `{EqDecision Row}.
Implicit Types (qs : list Row) (r : Row) (links : list Link).

Lemma elem_of_join pk side links qs r (o : option Link) :
  (r, o) ∈ QuerySet.join pk side links qs ↔
  r ∈ qs ∧ match o with
           | Some l => l ∈ links ∧ side l = pk r
           | None => ∀ l, l ∈ links → side l ≠ pk r
           end.
Proof.
  unfold QuerySet.join. rewrite list_elem_of_bind. split.
  - intros (r' & Hin & Hr').
    destruct (filter _ links) as [|l0 ls] eqn:Hf.
    + apply list_elem_of_singleton in Hin as [= -> ->].
      split; [done|]. intros l Hl Hside.
      exact (filter_nil_not_elem_of _ _ l Hf Hside Hl).
    + apply list_elem_of_fmap in Hin as (l & [= -> ->] & Hl).
      rewrite <- Hf in Hl. apply list_elem_of_filter in Hl as [Hside Hl].
      done.
  - intros [Hr Ho]. exists r. split; [|done].
    destruct (filter _ links) as [|l0 ls] eqn:Hf.
    + destruct o as [l|]; [|by apply list_elem_of_singleton].
      destruct Ho as [Hl Hside].
      destruct (filter_nil_not_elem_of _ _ l Hf Hside Hl).
    + destruct o as [l|].
      * destruct Ho as [Hl Hside]. apply list_elem_of_fmap.
        exists l. split; [done|]. rewrite <- Hf.
        by apply list_elem_of_filter.
      * assert (l0 ∈ filter (λ l, side l = pk r) links) as Hl0
          by (rewrite Hf; apply elem_of_cons; by left).
        apply list_elem_of_filter in Hl0 as [Hside Hl0].
        by destruct (Ho l0 Hl0).
Qed.

(** A row passes [<relation>__id__in=ids] exactly when one of its
    links leads to a listed id. *)
Lemma elem_of_filter_id_in pk side other links ids qs r :
  r ∈ QuerySet.filter_id_in pk side other links ids qs ↔
  r ∈ qs ∧ ∃ l, l ∈ links ∧ side l = pk r ∧ other l ∈ ids.
Proof.
  unfold QuerySet.filter_id_in. rewrite list_elem_of_fmap. split.
  - intros ([r' o] & -> & Hin). simpl.
    apply list_elem_of_filter in Hin as [Hrel Hin]. simpl in Hrel.
    apply elem_of_join in Hin as [Hr Ho].
    destruct o as [l|]; [|contradiction]. simpl in Hrel.
    split; [done|]. exists l. tauto.
  - intros (Hr & l & Hl & Hside & Hother).
    exists (r, Some l). split; [done|].
    apply list_elem_of_filter. split; [exact Hother|].
    apply elem_of_join. tauto.
Qed.

(** A row passes [<relation>__isnull=False] exactly when it has a
    link. *)
Lemma elem_of_filter_isnull_false pk side links qs r :
  r ∈ QuerySet.filter_isnull_false pk side links qs ↔
  r ∈ qs ∧ ∃ l, l ∈ links ∧ side l = pk r.
Proof.
  unfold QuerySet.filter_isnull_false. rewrite list_elem_of_fmap. split.
  - intros ([r' o] & -> & Hin). simpl.
    apply list_elem_of_filter in Hin as [[l Hl] Hin]. simpl in Hl. subst o.
    apply elem_of_join in Hin as [Hr Ho]. eauto.
  - intros (Hr & l & Hl & Hside).
    exists (r, Some l). split; [done|].
    apply list_elem_of_filter. split; [by eexists|].
    apply elem_of_join. tauto.
Qed.

Lemma elem_of_filter_user owner u qs r :
  r ∈ QuerySet.filter_user owner u qs ↔ owner r = u ∧ r ∈ qs.
Proof. unfold QuerySet.filter_user. by rewrite list_elem_of_filter. Qed.

Lemma elem_of_order_by_desc {K} (le : relation K)
    `{∀ x y, Decision (le x y)} (column : Row -> K) qs r :
  r ∈ QuerySet.order_by_desc le column qs ↔ r ∈ qs.
Proof. unfold QuerySet.order_by_desc. by rewrite merge_sort_Permutation. Qed.

Lemma elem_of_distinct qs r : r ∈ QuerySet.distinct qs ↔ r ∈ qs.
Proof. apply elem_of_remove_dups. Qed.

Lemma NoDup_distinct qs : NoDup (QuerySet.distinct qs).
Proof. apply NoDup_remove_dups. Qed.

(** [distinct] drops rows and keeps the order of those it keeps. *)
Lemma StronglySorted_distinct (R : relation Row) qs :
  StronglySorted R qs → StronglySorted R (QuerySet.distinct qs).
Proof.
  unfold QuerySet.distinct.
  induction 1 as [|x l Hl IH Hx]; simpl; [constructor|].
  destruct (decide_rel _ _ _) as [Hin|Hout]; [exact IH|].
  constructor; [exact IH|].
  apply Forall_forall. intros y Hy.
  rewrite elem_of_remove_dups in Hy.
  exact (proj1 (Forall_forall _ _) Hx y Hy).
Qed.

(** The rows of a sorted, de-duplicated queryset are in descending
    order of the column, whatever the order they were stored in. *)
Lemma distinct_order_by_desc_sorted {K} (le : relation K)
    `{∀ x y, Decision (le x y)} `{!Transitive le} `{!Total le}
    (column : Row -> K) qs :
  StronglySorted (λ a b, le (column b) (column a))
    (QuerySet.distinct (QuerySet.order_by_desc le column qs)).
Proof.
  apply StronglySorted_distinct. unfold QuerySet.order_by_desc.
  apply StronglySorted_merge_sort.
  - intros a b c Hab Hbc. by transitivity (column b).
  - intros a b. apply (total le).
Qed.

End queryset_facts.

(* ===================================================================== *)
(** ** The order of names *)
(* ===================================================================== *)

Lemma ascii_compare_Lt_trans (a b c : ascii) :
  Ascii.compare a b = Lt → Ascii.compare b c = Lt → Ascii.compare a c = Lt.
Proof.
  unfold Ascii.compare. rewrite !N.compare_lt_iff. apply N.lt_trans.
Qed.

Lemma string_compare_not_Gt_trans (s1 s2 s3 : string) :
  String.compare s1 s2 ≠ Gt → String.compare s2 s3 ≠ Gt →
  String.compare s1 s3 ≠ Gt.
Proof.
  revert s2 s3.
  induction s1 as [|a s1 IH]; intros [|b s2] [|c s3]; simpl; try congruence.
  destruct (Ascii.compare a b) eqn:Hab; [| |congruence].
  - apply Ascii.compare_eq_iff in Hab as ->.
    destruct (Ascii.compare b c); [apply IH|congruence|congruence].
  - destruct (Ascii.compare b c) eqn:Hbc; [| |congruence].
    + apply Ascii.compare_eq_iff in Hbc as <-. rewrite Hab. congruence.
    + rewrite (ascii_compare_Lt_trans a b c Hab Hbc). congruence.
Qed.

Lemma name_le_not_Gt (a b : string) : name_le a b ↔ String.compare a b ≠ Gt.
Proof.
  unfold name_le, String.leb. destruct (String.compare a b); split; congruence.
Qed.

#[global] Instance name_le_trans : Transitive name_le.
Proof.
  intros a b c. rewrite !name_le_not_Gt. apply string_compare_not_Gt_trans.
Qed.

#[global] Instance name_le_total : Total name_le.
Proof. intros a b. unfold name_le. apply String.leb_total. Qed.

#[global] Instance name_le_antisym : AntiSymm (=) name_le.
Proof. intros a b. unfold name_le. apply String.leb_antisym. Qed.

(* ===================================================================== *)
(** ** The recipe queryset *)
(* ===================================================================== *)

Lemma truthy_true (o : option string) :
  Py.truthy o = true ↔ ∃ s, o = Some s ∧ s ≠ "".
Proof.
  destruct o as [[|c s]|]; simpl; split; try discriminate.
  - intros (s & [= <-] & Hne). by destruct Hne.
  - intros _. by eexists.
  - reflexivity.
  - intros (s & [=] & _).
Qed.

(** An empty value is treated like an absent parameter. *)
Lemma holds_ids_empty request key :
  QueryDict_get key (query_params request) = Some "" →
  holds_ids request key None.
Proof. intros Hget. constructor. by rewrite Hget. Qed.

Lemma holds_ids_absent request key :
  QueryDict_get key (query_params request) = None →
  holds_ids request key None.
Proof. intros Hget. constructor. by rewrite Hget. Qed.

(** One filter step of [get_queryset], evaluated. *)
Lemma filter_step request key asked links qs :
  holds_ids request key asked →
  (if Py.truthy (QueryDict_get key (query_params request)) then
     let! ids := RecipeViewSet.params_to_int
                   (default "" (QueryDict_get key (query_params request))) in
     Ok (QuerySet.filter_id_in recipe_id link_recipe link_attr links ids qs)
   else Ok qs) = Ok (apply_filter links asked qs).
Proof.
  intros [Hfalse | s ids Hget Hne Hids].
  - by rewrite Hfalse.
  - rewrite Hget. simpl default.
    rewrite (proj2 (truthy_true (Some s))) by eauto.
    unfold RecipeViewSet.params_to_int.
    by rewrite (proj2 (comprehension_Ok _ _ _) Hids).
Qed.

Lemma filter_step_inv request key links qs qs' :
  (if Py.truthy (QueryDict_get key (query_params request)) then
     let! ids := RecipeViewSet.params_to_int
                   (default "" (QueryDict_get key (query_params request))) in
     Ok (QuerySet.filter_id_in recipe_id link_recipe link_attr links ids qs)
   else Ok qs) = Ok qs' →
  ∃ asked, holds_ids request key asked.
Proof.
  destruct (Py.truthy _) eqn:Htruthy.
  - apply truthy_true in Htruthy as (s & Hget & Hne). rewrite Hget. simpl.
    intros (ids & Hids & _)%bind_Ok. exists (Some ids).
    apply (holds_list _ _ s ids Hget Hne). by apply comprehension_Ok.
  - intros _. exists None. by constructor.
Qed.

(** What [get_queryset] returns when both parameters are well formed. *)
Lemma get_queryset_holds request db tags ingredients :
  holds_ids request "tags" tags →
  holds_ids request "ingredients" ingredients →
  RecipeViewSet.get_queryset request db =
    Ok (QuerySet.distinct
          (QuerySet.order_by_desc Z.le recipe_id
             (QuerySet.filter_user recipe_user (user request)
                (apply_filter (db_recipe_ingredients db) ingredients
                   (apply_filter (db_recipe_tags db) tags
                      (db_recipes db)))))).
Proof.
  intros Htags Hingredients. unfold RecipeViewSet.get_queryset.
  rewrite (filter_step _ _ _ _ _ Htags). simpl.
  by rewrite (filter_step _ _ _ _ _ Hingredients).
Qed.

(** [get_queryset] returns only when both parameters are well formed. *)
Lemma get_queryset_Ok_holds request db qs :
  RecipeViewSet.get_queryset request db = Ok qs →
  ∃ tags ingredients,
    holds_ids request "tags" tags ∧
    holds_ids request "ingredients" ingredients.
Proof.
  unfold RecipeViewSet.get_queryset.
  intros (qs1 & Hstep1 & Hrest)%bind_Ok.
  apply bind_Ok in Hrest as (qs2 & Hstep2 & _).
  apply filter_step_inv in Hstep1 as [tags Htags].
  apply filter_step_inv in Hstep2 as [ingredients Hingredients].
  eauto.
Qed.

Lemma elem_of_apply_filter links asked qs r :
  r ∈ apply_filter links asked qs ↔ r ∈ qs ∧ meets links asked r.
Proof.
  destruct asked as [ids|]; simpl; [|tauto].
  apply elem_of_filter_id_in.
Qed.

(** Membership in the result of [get_queryset]. *)
Lemma elem_of_get_queryset request db tags ingredients qs r :
  holds_ids request "tags" tags →
  holds_ids request "ingredients" ingredients →
  RecipeViewSet.get_queryset request db = Ok qs →
  r ∈ qs ↔
    r ∈ db_recipes db ∧ recipe_user r = user request ∧
    meets (db_recipe_tags db) tags r ∧
    meets (db_recipe_ingredients db) ingredients r.
Proof.
  intros Htags Hingredients.
  rewrite (get_queryset_holds _ _ _ _ Htags Hingredients). intros [= <-].
  rewrite elem_of_distinct, elem_of_order_by_desc, elem_of_filter_user.
  rewrite !elem_of_apply_filter. tauto.
Qed.

(** A primary key identifies its row. *)
Lemma NoDup_fmap_elem_of_inj {A B} (f : A -> B) (l : list A) x y :
  NoDup (f <$> l) → x ∈ l → y ∈ l → f x = f y → x = y.
Proof.
  induction l as [|a l IH]; simpl; intros Hnd Hx Hy Hxy.
  - by apply elem_of_nil in Hx.
  - apply NoDup_cons in Hnd as [Ha Hnd].
    apply elem_of_cons in Hx as [->|Hx]; apply elem_of_cons in Hy as [->|Hy].
    + reflexivity.
    + destruct Ha. rewrite Hxy. by apply list_elem_of_fmap_2.
    + destruct Ha. rewrite <- Hxy. by apply list_elem_of_fmap_2.
    + by apply IH.
Qed.

Lemma NoDup_fmap_sub {A B} (f : A -> B) (l k : list A) :
  NoDup (f <$> l) → NoDup k → (∀ x, x ∈ k → x ∈ l) → NoDup (f <$> k).
Proof.
  intros Hl Hk Hsub. apply NoDup_fmap_2_strong; [|exact Hk].
  intros x y Hx Hy. apply (NoDup_fmap_elem_of_inj f l); auto.
Qed.

Lemma StronglySorted_strengthen {A} (R R' : relation A) (l : list A) :
  StronglySorted R l → NoDup l →
  (∀ x y, x ∈ l → y ∈ l → x ≠ y → R x y → R' x y) →
  StronglySorted R' l.
Proof.
  induction 1 as [|x l Hl IH Hx]; intros Hnd Hstep; [constructor|].
  apply NoDup_cons in Hnd as [Hnotin Hnd].
  constructor.
  - apply IH; [exact Hnd|]. intros a b Ha Hb. apply Hstep; by apply elem_of_cons; right.
  - apply Forall_forall. intros y Hy.
    apply Hstep.
    + by apply elem_of_cons; left.
    + by apply elem_of_cons; right.
    + intros ->. contradiction.
    + exact (proj1 (Forall_forall _ _) Hx y Hy).
Qed.

(* ===================================================================== *)
(** ** The attribute queryset *)
(* ===================================================================== *)

Section attr_queryset.
Context `{RecipeAttrViewSet}.

(** The rows the attribute view selects before ordering. *)
Lemma attr_get_queryset_Ok request db qs :
  BaseRecipeAttrViewSet.get_queryset request db = Ok qs ↔
  ∃ n,
    Py.int (QueryDict_get_default "assigned_only" (Py.Int 0)
              (query_params request)) = Ok n ∧
    qs = QuerySet.distinct
           (QuerySet.order_by_desc name_le attr_name
              (QuerySet.filter_user attr_user (user request)
                 (if Py.bool_of_int n then
                    QuerySet.filter_isnull_false attr_id link_attr
                      (attr_recipe_links db) (attr_queryset db)
                  else attr_queryset db))).
Proof.
  unfold BaseRecipeAttrViewSet.get_queryset. rewrite bind_Ok.
  split; intros (n & Hn & Hqs); exists n; (split; [exact Hn|]).
  - by injection Hqs as <-.
  - by rewrite Hqs.
Qed.

Lemma elem_of_attr_get_queryset request db qs n a :
  Py.int (QueryDict_get_default "assigned_only" (Py.Int 0)
            (query_params request)) = Ok n →
  BaseRecipeAttrViewSet.get_queryset request db = Ok qs →
  a ∈ qs ↔
    a ∈ attr_queryset db ∧ attr_user a = user request ∧
    (Py.bool_of_int n = true → referenced (attr_recipe_links db) a).
Proof.
  intros Hn (n' & Hn' & ->)%attr_get_queryset_Ok.
  rewrite Hn in Hn'. injection Hn' as <-.
  rewrite elem_of_distinct, elem_of_order_by_desc, elem_of_filter_user.
  destruct (Py.bool_of_int n).
  - rewrite elem_of_filter_isnull_false. unfold referenced. split.
    + intros (Huser & Hin & Href). auto.
    + intros (Hin & Huser & Href). auto.
  - split.
    + intros [Huser Hin]. split_and!; [done|done|discriminate].
    + intros (Hin & Huser & _). done.
Qed.

End attr_queryset.

(* ===================================================================== *)
(** * The properties of the views *)
(* ===================================================================== *)

(** C1.  Every queryset that [RecipeViewSet.get_queryset] or
    [BaseRecipeAttrViewSet.get_queryset] returns holds only rows whose
    user is the requesting user; a row owned by another user is never in
    the list of this user. *)
Theorem get_queryset_user_scoped `{RecipeAttrViewSet}
    (request : Request) (db : Database) :
  (∀ qs, RecipeViewSet.get_queryset request db = Ok qs →
     Forall (λ r, recipe_user r = user request) qs ∧
     ∀ r, recipe_user r ≠ user request → r ∉ qs) ∧
  (∀ qs, BaseRecipeAttrViewSet.get_queryset request db = Ok qs →
     Forall (λ a, attr_user a = user request) qs ∧
     ∀ a, attr_user a ≠ user request → a ∉ qs).
Proof.
  split; intros qs Hqs.
  - destruct (get_queryset_Ok_holds _ _ _ Hqs) as (tags & ings & Ht & Hi).
    assert (∀ r, r ∈ qs → recipe_user r = user request) as Hown.
    { intros r Hr.
      apply (elem_of_get_queryset _ _ _ _ _ r Ht Hi Hqs) in Hr. tauto. }
    split; [by apply Forall_forall|].
    intros r Hother Hr. by apply Hother, Hown.
  - pose proof Hqs as (n & Hn & _)%attr_get_queryset_Ok.
    assert (∀ a, a ∈ qs → attr_user a = user request) as Hown.
    { intros a Ha.
      apply (elem_of_attr_get_queryset _ _ _ _ a Hn Hqs) in Ha. tauto. }
    split; [by apply Forall_forall|].
    intros a Hother Ha. by apply Hother, Hown.
Qed.

Lemma get_queryset_user_scoped_witness :
  Forall (λ r, recipe_user r = 1)
    [mk_recipe 12 1; mk_recipe 11 1; mk_recipe 10 1] ∧
  mk_recipe 20 2 ∉ [mk_recipe 12 1; mk_recipe 11 1; mk_recipe 10 1].
Proof.
  destruct (proj1 (get_queryset_user_scoped (H := TagViewSet)
                     (mk_request [] 1) sample_db)
              [mk_recipe 12 1; mk_recipe 11 1; mk_recipe 10 1])
    as [Hall Hnone].
  - vm_compute. reflexivity.
  - split; [exact Hall|]. apply (Hnone (mk_recipe 20 2)). simpl. lia.
Defined.

(** C2.  When the [tags] and [ingredients] parameters hold
    comma-separated integer ids (each of them possibly absent or empty),
    the recipe list is exactly the requesting user's recipes that are
    linked to at least one listed tag, if tags were listed, and to at
    least one listed ingredient, if ingredients were listed; no recipe
    is in the list twice. *)
Theorem recipe_list_filter (request : Request) (db : Database)
    (tags ingredients : option (list Z)) :
  holds_ids request "tags" tags →
  holds_ids request "ingredients" ingredients →
  ∃ qs,
    RecipeViewSet.get_queryset request db = Ok qs ∧
    (∀ r, r ∈ qs ↔
       r ∈ db_recipes db ∧ recipe_user r = user request ∧
       meets (db_recipe_tags db) tags r ∧
       meets (db_recipe_ingredients db) ingredients r) ∧
    NoDup qs ∧
    (NoDup (recipe_id <$> db_recipes db) → NoDup (recipe_id <$> qs)).
Proof.
  intros Htags Hingredients.
  pose proof (get_queryset_holds request db _ _ Htags Hingredients) as Hqs.
  eexists. split; [exact Hqs|].
  assert (∀ r, r ∈ _ ↔ _) as Hmem
    by (intros r; exact (elem_of_get_queryset _ _ _ _ _ r
                           Htags Hingredients Hqs)).
  split; [exact Hmem|]. split; [apply NoDup_distinct|].
  intros Hpk. apply (NoDup_fmap_sub recipe_id (db_recipes db));
    [exact Hpk | apply NoDup_distinct |].
  intros r Hr. apply Hmem in Hr. tauto.
Qed.

Lemma recipe_list_filter_witness :
  ∃ qs,
    RecipeViewSet.get_queryset (mk_request [("tags", "1,2")] 1) sample_db
      = Ok qs ∧
    (∀ r, r ∈ qs ↔
       r ∈ db_recipes sample_db ∧ recipe_user r = 1 ∧
       linked_to (db_recipe_tags sample_db) [1; 2] r ∧ True) ∧
    NoDup qs ∧
    (NoDup (recipe_id <$> db_recipes sample_db) → NoDup (recipe_id <$> qs)).
Proof.
  apply (recipe_list_filter (mk_request [("tags", "1,2")] 1) sample_db
           (Some [1; 2]) None).
  - apply (holds_list _ _ "1,2" [1; 2]); [reflexivity|discriminate|].
    repeat constructor.
  - apply holds_nothing. reflexivity.
Defined.

(** C8.  The order of a list is fixed by the view: the recipe list is in
    descending order of [id] and the tag and ingredient lists are in
    descending order of [name], both without repeated rows.  With unique
    primary keys the recipe ids are strictly descending. *)
Theorem list_ordering `{RecipeAttrViewSet} (request : Request) (db : Database) :
  (∀ qs, RecipeViewSet.get_queryset request db = Ok qs →
     StronglySorted (λ a b, (recipe_id b ≤ recipe_id a)%Z) qs ∧ NoDup qs ∧
     (NoDup (recipe_id <$> db_recipes db) →
      StronglySorted (λ a b, (recipe_id b < recipe_id a)%Z) qs)) ∧
  (∀ qs, BaseRecipeAttrViewSet.get_queryset request db = Ok qs →
     StronglySorted (λ a b, name_le (attr_name b) (attr_name a)) qs ∧
     NoDup qs).
Proof.
  split; intros qs Hqs.
  - destruct (get_queryset_Ok_holds _ _ _ Hqs) as (tags & ings & Ht & Hi).
    pose proof (λ r, elem_of_get_queryset _ _ _ _ _ r Ht Hi Hqs) as Hmem.
    rewrite (get_queryset_holds _ _ _ _ Ht Hi) in Hqs.
    injection Hqs as Hqs.
    assert (StronglySorted (λ a b, (recipe_id b ≤ recipe_id a)%Z) qs) as Hsorted
      by (rewrite <- Hqs; apply distinct_order_by_desc_sorted; apply _).
    assert (NoDup qs) as Hnd by (rewrite <- Hqs; apply NoDup_distinct).
    split; [exact Hsorted|]. split; [exact Hnd|].
    intros Hpk. apply (StronglySorted_strengthen _ _ _ Hsorted Hnd).
    intros a b Ha Hb Hne Hle.
    assert (recipe_id a ≠ recipe_id b); [|lia].
    intros Hid. apply Hne.
    apply (NoDup_fmap_elem_of_inj recipe_id (db_recipes db)); auto.
    + by apply Hmem in Ha as [? _].
    + by apply Hmem in Hb as [? _].
  - apply attr_get_queryset_Ok in Hqs as (n & _ & ->).
    split; [|apply NoDup_distinct].
    apply distinct_order_by_desc_sorted; apply _.
Qed.

Lemma list_ordering_witness :
  StronglySorted (λ a b, name_le (attr_name b) (attr_name a))
    [ {| attr_id := 1; attr_user := 1; attr_name := "vegan" |};
      {| attr_id := 4; attr_user := 1; attr_name := "unused" |};
      {| attr_id := 3; attr_user := 1; attr_name := "quick" |};
      {| attr_id := 2; attr_user := 1; attr_name := "dessert" |} ].
Proof.
  apply (proj2 (list_ordering (H := TagViewSet) (mk_request [] 1) sample_db)).
  vm_compute. reflexivity.
Defined.

(** C7.  On a tag or ingredient list, [assigned_only=1] gives exactly the
    requesting user's rows that at least one recipe references;
    [assigned_only=0], or no [assigned_only] at all, gives all rows of
    the requesting user. *)
Theorem assigned_only_filter `{RecipeAttrViewSet}
    (request : Request) (db : Database) :
  (QueryDict_get "assigned_only" (query_params request) = Some "1" →
   ∃ qs, BaseRecipeAttrViewSet.get_queryset request db = Ok qs ∧
     ∀ a, a ∈ qs ↔
       a ∈ attr_queryset db ∧ attr_user a = user request ∧
       referenced (attr_recipe_links db) a) ∧
  (QueryDict_get "assigned_only" (query_params request) = Some "0" ∨
   QueryDict_get "assigned_only" (query_params request) = None →
   ∃ qs, BaseRecipeAttrViewSet.get_queryset request db = Ok qs ∧
     ∀ a, a ∈ qs ↔ a ∈ attr_queryset db ∧ attr_user a = user request).
Proof.
  split.
  - intros Hget.
    assert (Py.int (QueryDict_get_default "assigned_only" (Py.Int 0)
                      (query_params request)) = Ok 1) as Hn
      by (unfold QueryDict_get_default; by rewrite Hget).
    eexists. split.
    + apply attr_get_queryset_Ok. exists 1. split; [exact Hn|reflexivity].
    + intros a.
      rewrite (elem_of_attr_get_queryset request db _ 1 a Hn)
        by (apply attr_get_queryset_Ok; eauto).
      simpl. tauto.
  - intros Hget.
    assert (Py.int (QueryDict_get_default "assigned_only" (Py.Int 0)
                      (query_params request)) = Ok 0) as Hn
      by (unfold QueryDict_get_default; by destruct Hget as [-> | ->]).
    eexists. split.
    + apply attr_get_queryset_Ok. exists 0. split; [exact Hn|reflexivity].
    + intros a.
      rewrite (elem_of_attr_get_queryset request db _ 0 a Hn)
        by (apply attr_get_queryset_Ok; eauto).
      simpl. intuition discriminate.
Qed.

Lemma assigned_only_filter_witness :
  ∃ qs,
    BaseRecipeAttrViewSet.get_queryset (H := TagViewSet)
      (mk_request [("assigned_only", "1")] 1) sample_db = Ok qs ∧
    ∀ a, a ∈ qs ↔
      a ∈ db_tags sample_db ∧ attr_user a = 1 ∧
      referenced (db_recipe_tags sample_db) a.
Proof.
  apply (proj1 (assigned_only_filter (H := TagViewSet)
                  (mk_request [("assigned_only", "1")] 1) sample_db)).
  reflexivity.
Defined.

(* ===================================================================== *)
(** ** Parameters that are not integers *)
(* ===================================================================== *)

(** [params_to_int] raises the [ValueError] of the first token that is
    not an integer literal. *)
Lemma params_to_int_raises (s token : string) :
  token ∈ Py.split "," s → raises (Py.int_of_str token) →
  ∃ literal, literal ∈ Py.split "," s ∧
    RecipeViewSet.params_to_int s = Raise (ValueError literal).
Proof.
  intros Hin Hraises. unfold RecipeViewSet.params_to_int.
  pose proof (comprehension_raises _ _ _ Hin Hraises) as Hall.
  destruct (comprehension _ _) as [ids|e] eqn:Hcomp; [contradiction|].
  destruct (comprehension_error _ _ _ Hcomp) as (literal & Hlit & Herr).
  apply int_of_str_error in Herr as Heq. subst e. eauto.
Qed.

(** With such a token in [tags] or in [ingredients], [get_queryset]
    raises what [params_to_int] raised on one of the two parameters. *)
Lemma get_queryset_non_integer request db key :
  key = "tags" ∨ key = "ingredients" →
  has_non_integer_token request key →
  ∃ key' s literal,
    (key' = "tags" ∨ key' = "ingredients") ∧
    QueryDict_get key' (query_params request) = Some s ∧
    literal ∈ Py.split "," s ∧
    RecipeViewSet.params_to_int s = Raise (ValueError literal) ∧
    RecipeViewSet.get_queryset request db = Raise (ValueError literal).
Proof.
  intros Hkey (s & token & Hget & Hne & Hin & Hraises).
  destruct (params_to_int_raises s token Hin Hraises) as (lit & Hlit & Hp).
  assert (Py.truthy (Some s) = true) as Htruthy
    by (apply truthy_true; eauto).
  destruct Hkey as [-> | ->].
  - exists "tags", s, lit. split_and!; auto.
    unfold RecipeViewSet.get_queryset. rewrite Hget, Htruthy. simpl default.
    by rewrite Hp.
  - unfold RecipeViewSet.get_queryset.
    destruct (Py.truthy (QueryDict_get "tags" _)) eqn:Htags.
    + apply truthy_true in Htags as (s' & Hget' & Hne').
      rewrite Hget'. simpl default.
      destruct (RecipeViewSet.params_to_int s') as [ids|e] eqn:Hp'.
      * exists "ingredients", s, lit. split_and!; auto.
        simpl. rewrite Hget, Htruthy. simpl default. by rewrite Hp.
      * unfold RecipeViewSet.params_to_int in Hp'.
        destruct (comprehension_error _ _ _ Hp') as (lit' & Hlit' & Herr).
        apply int_of_str_error in Herr as Heq. subst e.
        exists "tags", s', lit'. split_and!; auto.
    + exists "ingredients", s, lit. split_and!; auto.
      simpl. rewrite Hget, Htruthy. simpl default. by rewrite Hp.
Qed.

(** C3, as the code has it.  A non-integer token in [tags] or
    [ingredients] makes the list request fail at the string-to-integer
    conversion: [params_to_int] raises a [ValueError] on the parameter,
    and the request is answered with status 500, which is not a client
    error. *)
Theorem non_integer_token_server_error `{Serializers}
    (request : Request) (db : Database) (key : string) :
  key = "tags" ∨ key = "ingredients" →
  has_non_integer_token request key →
  ∃ key' s literal,
    (key' = "tags" ∨ key' = "ingredients") ∧
    QueryDict_get key' (query_params request) = Some s ∧
    literal ∈ Py.split "," s ∧
    RecipeViewSet.params_to_int s = Raise (ValueError literal) ∧
    http_status (RecipeViewSet.list request db)
      = HTTP_500_INTERNAL_SERVER_ERROR ∧
    is_client_error (http_status (RecipeViewSet.list request db)) = false.
Proof.
  intros Hkey Htoken.
  destruct (get_queryset_non_integer request db key Hkey Htoken)
    as (key' & s & lit & Hkey' & Hget & Hlit & Hp & Hqs).
  exists key', s, lit. split_and!; auto.
  - unfold RecipeViewSet.list. by rewrite Hqs.
  - unfold RecipeViewSet.list. by rewrite Hqs.
Qed.

Lemma sample_non_integer_token :
  has_non_integer_token (mk_request [("tags", "abc")] 1) "tags".
Proof.
  exists "abc", "abc". split_and!.
  - reflexivity.
  - discriminate.
  - apply list_elem_of_singleton. reflexivity.
  - exact I.
Defined.

Lemma non_integer_token_server_error_witness :
  ∃ key' s literal,
    (key' = "tags" ∨ key' = "ingredients") ∧
    QueryDict_get key' [("tags", "abc")] = Some s ∧
    literal ∈ Py.split "," s ∧
    RecipeViewSet.params_to_int s = Raise (ValueError literal) ∧
    http_status (RecipeViewSet.list (H := sample_serializers)
                   (mk_request [("tags", "abc")] 1) sample_db)
      = HTTP_500_INTERNAL_SERVER_ERROR ∧
    is_client_error
      (http_status (RecipeViewSet.list (H := sample_serializers)
                      (mk_request [("tags", "abc")] 1) sample_db)) = false.
Proof.
  apply (non_integer_token_server_error (H := sample_serializers)
           (mk_request [("tags", "abc")] 1) sample_db "tags").
  - left. reflexivity.
  - exact sample_non_integer_token.
Defined.

(** C3, as the specification words it, fails: the list request with
    [tags=abc] has the non-integer token [abc] and is not answered with
    a client error. *)
Lemma non_integer_token_not_client_error :
  has_non_integer_token (mk_request [("tags", "abc")] 1) "tags" ∧
  is_client_error
    (http_status (RecipeViewSet.list (H := sample_serializers)
                    (mk_request [("tags", "abc")] 1) sample_db)) ≠ true.
Proof.
  split; [exact sample_non_integer_token|].
  vm_compute. discriminate.
Qed.

(** C4.  A non-numeric token in [tags] or [ingredients] makes
    [get_queryset] raise a [ValueError]; the list action does not catch
    it, no handler of the REST layer turns it into a response, and the
    client gets status 500, not 400. *)
Theorem conversion_error_propagates `{Serializers}
    (request : Request) (db : Database) (key : string) :
  key = "tags" ∨ key = "ingredients" →
  has_non_integer_token request key →
  ∃ literal,
    RecipeViewSet.get_queryset request db = Raise (ValueError literal) ∧
    RecipeViewSet.list request db = Uncaught (ValueError literal) ∧
    http_status (RecipeViewSet.list request db)
      = HTTP_500_INTERNAL_SERVER_ERROR ∧
    http_status (RecipeViewSet.list request db) ≠ HTTP_400_BAD_REQUEST.
Proof.
  intros Hkey Htoken.
  destruct (get_queryset_non_integer request db key Hkey Htoken)
    as (key' & s & lit & _ & _ & _ & _ & Hqs).
  exists lit. unfold RecipeViewSet.list. rewrite Hqs. simpl.
  split_and!; try reflexivity. discriminate.
Qed.

Lemma conversion_error_propagates_witness :
  ∃ literal,
    RecipeViewSet.get_queryset
      (mk_request [("tags", "1"); ("ingredients", "7,x")] 1) sample_db
      = Raise (ValueError literal) ∧
    RecipeViewSet.list (H := sample_serializers)
      (mk_request [("tags", "1"); ("ingredients", "7,x")] 1) sample_db
      = Uncaught (ValueError literal) ∧
    http_status
      (RecipeViewSet.list (H := sample_serializers)
         (mk_request [("tags", "1"); ("ingredients", "7,x")] 1) sample_db)
      = HTTP_500_INTERNAL_SERVER_ERROR ∧
    http_status
      (RecipeViewSet.list (H := sample_serializers)
         (mk_request [("tags", "1"); ("ingredients", "7,x")] 1) sample_db)
      ≠ HTTP_400_BAD_REQUEST.
Proof.
  apply (conversion_error_propagates (H := sample_serializers)
           (mk_request [("tags", "1"); ("ingredients", "7,x")] 1)
           sample_db "ingredients").
  - right. reflexivity.
  - exists "7,x", "x". split_and!.
    + reflexivity.
    + discriminate.
    + apply elem_of_cons. right. apply list_elem_of_singleton. reflexivity.
    + exact I.
Defined.

(** C10.  [assigned_only] is read as [bool(int(value))] with default 0.
    A value that is an integer literal other than zero (['2'], ['-1'])
    switches the filter on; a literal of zero, or no parameter, leaves it
    off; a value that is no integer literal (['true'], ['']) raises a
    [ValueError] that nothing catches, so the answer is status 500 and
    not 400. *)
Theorem assigned_only_parsing `{RecipeAttrViewSet} `{Serializers}
    (request : Request) (db : Database) :
  (∀ s n, QueryDict_get "assigned_only" (query_params request) = Some s →
     Py.int_of_str s = Ok n → n ≠ 0%Z →
     BaseRecipeAttrViewSet.get_queryset request db =
       Ok (QuerySet.distinct
             (QuerySet.order_by_desc name_le attr_name
                (QuerySet.filter_user attr_user (user request)
                   (QuerySet.filter_isnull_false attr_id link_attr
                      (attr_recipe_links db) (attr_queryset db)))))) ∧
  (QueryDict_get "assigned_only" (query_params request) = None ∨
   (∃ s, QueryDict_get "assigned_only" (query_params request) = Some s ∧
         Py.int_of_str s = Ok 0%Z) →
   BaseRecipeAttrViewSet.get_queryset request db =
     Ok (QuerySet.distinct
           (QuerySet.order_by_desc name_le attr_name
              (QuerySet.filter_user attr_user (user request)
                 (attr_queryset db))))) ∧
  (∀ s, QueryDict_get "assigned_only" (query_params request) = Some s →
     raises (Py.int_of_str s) →
     BaseRecipeAttrViewSet.get_queryset request db = Raise (ValueError s) ∧
     BaseRecipeAttrViewSet.list request db = Uncaught (ValueError s) ∧
     http_status (BaseRecipeAttrViewSet.list request db)
       = HTTP_500_INTERNAL_SERVER_ERROR ∧
     http_status (BaseRecipeAttrViewSet.list request db)
       ≠ HTTP_400_BAD_REQUEST) ∧
  (Py.int_of_str "2" = Ok 2%Z ∧ Py.int_of_str "-1" = Ok (-1)%Z ∧
   Py.int_of_str "1" = Ok 1%Z ∧ Py.int_of_str "0" = Ok 0%Z ∧
   raises (Py.int_of_str "true") ∧ raises (Py.int_of_str "")).
Proof.
  split_and!.
  - intros s n Hget Hint Hn.
    unfold BaseRecipeAttrViewSet.get_queryset, QueryDict_get_default.
    rewrite Hget. simpl. rewrite Hint. simpl.
    unfold Py.bool_of_int. by destruct (Z.eqb_spec n 0).
  - intros Hoff.
    unfold BaseRecipeAttrViewSet.get_queryset, QueryDict_get_default.
    destruct Hoff as [-> | (s & -> & Hint)]; simpl; [reflexivity|].
    by rewrite Hint.
  - intros s Hget Hraises.
    assert (BaseRecipeAttrViewSet.get_queryset request db
            = Raise (ValueError s)) as Hqs.
    { unfold BaseRecipeAttrViewSet.get_queryset, QueryDict_get_default.
      rewrite Hget. simpl.
      destruct (Py.int_of_str s) as [n|e] eqn:Hint; [contradiction|].
      apply int_of_str_error in Hint as ->. reflexivity. }
    unfold BaseRecipeAttrViewSet.list. rewrite Hqs. simpl.
    split_and!; try reflexivity. discriminate.
  - reflexivity.
  - reflexivity.
  - reflexivity.
  - reflexivity.
  - exact I.
  - exact I.
Qed.

Lemma assigned_only_parsing_witness :
  BaseRecipeAttrViewSet.get_queryset (H := IngredientViewSet)
    (mk_request [("assigned_only", "2")] 1) sample_db =
  Ok (QuerySet.distinct
        (QuerySet.order_by_desc name_le attr_name
           (QuerySet.filter_user attr_user 1
              (QuerySet.filter_isnull_false attr_id link_attr
                 (db_recipe_ingredients sample_db)
                 (db_ingredients sample_db))))).
Proof.
  apply (proj1 (assigned_only_parsing (H := IngredientViewSet)
                  (H0 := sample_serializers)
                  (mk_request [("assigned_only", "2")] 1) sample_db)
           "2" 2%Z).
  - reflexivity.
  - reflexivity.
  - lia.
Defined.

(* ===================================================================== *)
(** ** Writes: upload of an image and creation *)
(* ===================================================================== *)

(** [get_object] returns a stored row of the requesting user that has
    the primary key of the URL. *)
Lemma get_object_Ok request db pk recipe :
  Rest.get_object (RecipeViewSet.get_queryset request db) pk = Ok recipe →
  recipe ∈ db_recipes db ∧ recipe_id recipe = pk ∧
  recipe_user recipe = user request.
Proof.
  unfold Rest.get_object. intros (qs & Hqs & Hpick)%bind_Ok.
  destruct (filter _ qs) as [|r [|r' rest]] eqn:Hf; try discriminate.
  injection Hpick as ->.
  assert (recipe ∈ filter (λ r, recipe_id r = pk) qs) as Hin
    by (rewrite Hf; by apply list_elem_of_singleton).
  apply list_elem_of_filter in Hin as [Hpk Hin].
  destruct (get_queryset_Ok_holds _ _ _ Hqs) as (tags & ings & Ht & Hi).
  apply (elem_of_get_queryset _ _ _ _ _ recipe Ht Hi Hqs) in Hin. tauto.
Qed.

(** Saving a row that is stored puts the new version in the table. *)
Lemma elem_of_save r r' db :
  r ∈ db_recipes db → recipe_id r' = recipe_id r →
  r' ∈ db_recipes (Model.save r' db).
Proof.
  intros Hin Hid. simpl. apply list_elem_of_fmap. exists r.
  split; [|exact Hin]. by rewrite decide_True.
Qed.

Lemma upload_image_serializer_class :
  RecipeViewSet.get_serializer_class "upload_image" = RecipeImageSerializer.
Proof. reflexivity. Qed.

(** The two branches of [upload_image] once the recipe is found. *)
Lemma upload_image_found `{Serializers} request pk db recipe :
  Rest.get_object (RecipeViewSet.get_queryset request db) pk = Ok recipe →
  RecipeViewSet.upload_image request pk db =
    match run_validation RecipeImageSerializer (data request) with
    | Valid validated_data =>
        let saved := Model.assign validated_data recipe in
        (Returned {| body := Object (to_representation
                                       RecipeImageSerializer saved);
                     status := HTTP_200_OK |},
         Model.save saved db, [Saved saved])
    | Invalid errors =>
        (Returned {| body := Errors errors;
                     status := HTTP_400_BAD_REQUEST |}, db, [])
    end.
Proof.
  intros Hobj. unfold RecipeViewSet.upload_image. rewrite Hobj.
  unfold RecipeViewSet.get_serializer. simpl ser_class. simpl ser_initial_data.
  rewrite upload_image_serializer_class.
  destruct (run_validation _ _) as [vd|errors]; [|reflexivity].
  unfold Rest.save, Rest.update. simpl ser_instance. cbv iota beta.
  by rewrite (left_id_L ∅ (∪)).
Qed.



(** C9.  When the payload of [upload-image] is not valid, nothing is
    written: the database is the one before the request and no save was
    made; the only thing produced is the error response. *)
Theorem upload_image_invalid_atomic `{Serializers}
    (request : Request) (pk : Z) (db : Database)
    (errors : gmap string (list string)) :
  run_validation RecipeImageSerializer (data request) = Invalid errors →
  (RecipeViewSet.upload_image request pk db).1.2 = db ∧
  (RecipeViewSet.upload_image request pk db).2 = [] ∧
  (∀ recipe,
     Rest.get_object (RecipeViewSet.get_queryset request db) pk = Ok recipe →
     (RecipeViewSet.upload_image request pk db).1.1 =
       Returned {| body := Errors errors; status := HTTP_400_BAD_REQUEST |}).
Proof.
  intros Hinvalid.
  destruct (Rest.get_object (RecipeViewSet.get_queryset request db) pk)
    as [recipe|e] eqn:Hobj.
  - rewrite (upload_image_found _ _ _ _ Hobj), Hinvalid. simpl.
    split_and!; [reflexivity | reflexivity |].
    intros recipe' _. reflexivity.
  - unfold RecipeViewSet.upload_image. rewrite Hobj. simpl.
    split_and!; [reflexivity | reflexivity |].
    intros recipe' Hfound. discriminate Hfound.
Qed.

Lemma upload_image_invalid_atomic_witness :
  (RecipeViewSet.upload_image (H := sample_serializers)
     (image_request ∅) 10 sample_db).1.2 = sample_db ∧
  (RecipeViewSet.upload_image (H := sample_serializers)
     (image_request ∅) 10 sample_db).2 = [] ∧
  (∀ recipe,
     Rest.get_object
       (RecipeViewSet.get_queryset (image_request ∅) sample_db) 10
       = Ok recipe →
     (RecipeViewSet.upload_image (H := sample_serializers)
        (image_request ∅) 10 sample_db).1.1 =
       Returned {| body := Errors {[ "image" := ["No file was submitted."] ]};
                   status := HTTP_400_BAD_REQUEST |}).
Proof.
  apply (upload_image_invalid_atomic (H := sample_serializers)
           (image_request ∅) 10 sample_db).
  reflexivity.
Defined.

(** The keyword arguments of [save] win over the validated data. *)
Lemma kwargs_user_lookup (u : Z) (validated_data : gmap string Py.value) :
  ({[ "user" := Py.Int u ]} ∪ validated_data) !! "user" = Some (Py.Int u).
Proof. apply lookup_union_Some_l. apply lookup_singleton_eq. Qed.

Lemma assign_without_user attrs r :
  recipe_user (Model.assign (delete "user" attrs) r) = recipe_user r.
Proof. unfold Model.assign. simpl. by rewrite lookup_delete_eq. Qed.

(** C6.  [perform_create] stores the new recipe with the requesting user
    as its user, whatever the validated data hold, a [user] entry
    included; so does the [create] action for every payload that the
    serializer accepts. *)
Theorem perform_create_owner `{Serializers}
    (request : Request) (db : Database) :
  (∀ serializer validated_data,
     ser_instance serializer = None →
     ∃ r db',
       RecipeViewSet.perform_create request serializer validated_data db
         = Ok (r, db') ∧
       recipe_user r = user request ∧
       db_recipes db' = (db_recipes db ++ [r])%list) ∧
  (∀ validated_data,
     run_validation (RecipeViewSet.get_serializer_class "create")
       (data request) = Valid validated_data →
     ∃ r db',
       RecipeViewSet.create request db =
         (Returned {| body := Object (to_representation
                        (RecipeViewSet.get_serializer_class "create") r);
                      status := HTTP_201_CREATED |},
          db', [Saved r]) ∧
       recipe_user r = user request ∧
       db_recipes db' = (db_recipes db ++ [r])%list).
Proof.
  assert (∀ serializer validated_data,
     ser_instance serializer = None →
     ∃ r db',
       RecipeViewSet.perform_create request serializer validated_data db
         = Ok (r, db') ∧
       recipe_user r = user request ∧
       db_recipes db' = (db_recipes db ++ [r])%list) as Hperform.
  { intros serializer vd Hnew.
    unfold RecipeViewSet.perform_create, Rest.save, Rest.create.
    rewrite Hnew, kwargs_user_lookup.
    eexists _, _. split; [reflexivity|].
    split; [by rewrite assign_without_user | reflexivity]. }
  split; [exact Hperform|].
  intros vd Hvalid. unfold RecipeViewSet.create.
  simpl ser_class. simpl ser_initial_data. rewrite Hvalid.
  destruct (Hperform (RecipeViewSet.get_serializer "create" None
                        (data request)) vd eq_refl)
    as (r & db' & -> & Huser & Hrows).
  by exists r, db'.
Qed.

Lemma perform_create_owner_witness :
  ∃ r db',
    RecipeViewSet.perform_create (mk_request [] 1)
      (RecipeViewSet.get_serializer "create" None forged_data)
      forged_data sample_db = Ok (r, db') ∧
    recipe_user r = 1 ∧
    db_recipes db' = (db_recipes sample_db ++ [r])%list.
Proof.
  apply (proj1 (perform_create_owner (H := sample_serializers)
                  (mk_request [] 1) sample_db)
           (RecipeViewSet.get_serializer "create" None forged_data)
           forged_data).
  reflexivity.
Defined.

(* ===================================================================== *)
(** * Further properties of the views *)
(* ===================================================================== *)

(** ** [params_to_int] *)

Lemma split_cons_inv (sep : ascii) (s : string) :
  ∃ piece pieces, Py.split sep s = piece :: pieces.
Proof.
  destruct s as [|c s]; simpl; [by eexists _, _|].
  destruct (Ascii.eqb c sep); [by eexists _, _|].
  destruct (Py.split sep s); by eexists _, _.
Qed.

Lemma split_length (sep : ascii) (s : string) :
  length (Py.split sep s) = S (count_char sep s).
Proof.
  induction s as [|c s IH]; simpl; [reflexivity|].
  destruct (Ascii.eqb c sep); simpl; [by rewrite IH|].
  destruct (Py.split sep s) as [|piece pieces]; simpl in *; [discriminate|].
  exact IH.
Qed.

(** Splitting distributes over a separator in the middle. *)
Lemma split_app (sep : ascii) (s1 s2 : string) :
  Py.split sep (s1 ++ String sep s2) = (Py.split sep s1 ++ Py.split sep s2)%list.
Proof.
  induction s1 as [|c s1 IH]; simpl.
  - by rewrite Ascii.eqb_refl.
  - destruct (Ascii.eqb c sep); [by rewrite IH|].
    rewrite IH. by destruct (split_cons_inv sep s1) as (p & ps & ->).
Qed.

Lemma comprehension_first_error {A B} (f : A -> result B)
    (pre post : list A) (x : A) (e : exn) :
  Forall (λ a, ¬ raises (f a)) pre → f x = Raise e →
  comprehension f (pre ++ x :: post) = Raise e.
Proof.
  intros Hpre Hx. induction Hpre as [|a pre Ha Hpre IH]; simpl.
  - by rewrite Hx.
  - destruct (f a); [|by destruct Ha]. simpl. by rewrite IH.
Qed.

(** X2.  When [params_to_int] returns, it returns one integer for each
    comma-separated piece of the string: one more than the string has
    commas, so never an empty list. *)
Theorem params_to_int_length (s : string) (ids : list Z) :
  RecipeViewSet.params_to_int s = Ok ids →
  length ids = S (count_char "," s) ∧ ids ≠ [] ∧
  Forall2 (λ piece id, Py.int_of_str piece = Ok id) (Py.split "," s) ids.
Proof.
  unfold RecipeViewSet.params_to_int. intros Hall%comprehension_Ok.
  assert (length ids = S (count_char "," s)) as Hlen
    by (rewrite <- (Forall2_length _ _ _ Hall); apply split_length).
  split; [exact Hlen|]. split; [|exact Hall].
  intros ->. discriminate Hlen.
Qed.

Lemma params_to_int_length_witness :
  length [3; 1; 2]%Z = S (count_char "," "3, 1,+2") ∧ [3; 1; 2]%Z ≠ [] ∧
  Forall2 (λ piece id, Py.int_of_str piece = Ok id)
    (Py.split "," "3, 1,+2") [3; 1; 2]%Z.
Proof.
  apply (params_to_int_length "3, 1,+2" [3; 1; 2]%Z). reflexivity.
Defined.

(** X3.  [params_to_int] converts the pieces from left to right and
    raises the [ValueError] of the first piece that is not an integer
    literal, whatever follows it. *)
Theorem params_to_int_first_error (s : string) (pre post : list string)
    (token : string) :
  Py.split "," s = (pre ++ token :: post)%list →
  Forall (λ piece, ¬ raises (Py.int_of_str piece)) pre →
  raises (Py.int_of_str token) →
  RecipeViewSet.params_to_int s = Raise (ValueError token).
Proof.
  intros Hsplit Hpre Htoken. unfold RecipeViewSet.params_to_int.
  rewrite Hsplit. apply comprehension_first_error; [exact Hpre|].
  destruct (Py.int_of_str token) as [n|e] eqn:Hint; [contradiction|].
  by apply int_of_str_error in Hint as ->.
Qed.

Lemma params_to_int_first_error_witness :
  RecipeViewSet.params_to_int "1,x,y" = Raise (ValueError "x").
Proof.
  apply (params_to_int_first_error "1,x,y" ["1"] ["y"] "x").
  - reflexivity.
  - repeat constructor. simpl. tauto.
  - exact I.
Defined.

(** X4.  A comma with nothing on one side of it makes [params_to_int]
    raise: a leading comma, a trailing comma and two commas in a row all
    leave an empty piece, which is not an integer literal. *)
Theorem params_to_int_empty_piece (s1 s2 : string) :
  RecipeViewSet.params_to_int (String "," s2) = Raise (ValueError "") ∧
  raises (RecipeViewSet.params_to_int (s1 ++ ",")) ∧
  raises (RecipeViewSet.params_to_int (s1 ++ ",," ++ s2)).
Proof.
  unfold RecipeViewSet.params_to_int. split_and!.
  - reflexivity.
  - rewrite split_app. apply (comprehension_raises _ _ "").
    + apply elem_of_app. right. by apply list_elem_of_singleton.
    + exact I.
  - change (",," ++ s2) with (String "," (String "," s2)).
    rewrite split_app. apply (comprehension_raises _ _ "").
    + apply elem_of_app. right. simpl. apply elem_of_cons. by left.
    + exact I.
Qed.

(** ** [get_serializer_class] *)

(** X1.  The summary serializer is chosen for the action [list] and for
    no other, the image serializer for [upload_image] and for no other,
    and every other action, whatever its name, gets the detail
    serializer. *)
Theorem get_serializer_class_cases (action : string) :
  (RecipeViewSet.get_serializer_class action = RecipeSerializer
     ↔ action = "list") ∧
  (RecipeViewSet.get_serializer_class action = RecipeImageSerializer
     ↔ action = "upload_image") ∧
  (RecipeViewSet.get_serializer_class action = RecipeDetailSerializer
     ↔ action ≠ "list" ∧ action ≠ "upload_image").
Proof.
  unfold RecipeViewSet.get_serializer_class, RecipeViewSet.serializer_class.
  destruct (decide (action = "list")) as [->|Hlist].
  - split_and!; split; try done. intros [Hne _]. by destruct Hne.
  - destruct (decide (action = "upload_image")) as [->|Hupload].
    + split_and!; split; try done. intros [_ Hne]. by destruct Hne.
    + split_and!; split; done.
Qed.

(** ** When the recipe list fails *)

(** A filter parameter is either well formed or has a token that is not
    an integer literal. *)
Lemma parameter_cases request key :
  (∃ asked, holds_ids request key asked) ∨ has_non_integer_token request key.
Proof.
  destruct (Py.truthy (QueryDict_get key (query_params request))) eqn:Htruthy.
  - apply truthy_true in Htruthy as (s & Hget & Hne).
    destruct (comprehension Py.int_of_str (Py.split "," s)) as [ids|e] eqn:Hc.
    + left. exists (Some ids). eapply holds_list; eauto.
      by apply comprehension_Ok.
    + right. destruct (comprehension_error _ _ _ Hc) as (token & Hin & Herr).
      exists s, token. split_and!; auto. by rewrite Herr.
  - left. exists None. by constructor.
Qed.

(** What the recipe queryset raises is a [ValueError], and it is raised
    whatever rows are stored. *)
Lemma get_queryset_error request db e :
  RecipeViewSet.get_queryset request db = Raise e →
  (∃ literal, e = ValueError literal) ∧
  ∀ db', RecipeViewSet.get_queryset request db' = Raise e.
Proof.
  unfold RecipeViewSet.get_queryset.
  destruct (Py.truthy (QueryDict_get "tags" _)).
  - destruct (RecipeViewSet.params_to_int
                (default "" (QueryDict_get "tags" (query_params request))))
      as [tag_ids|e1] eqn:Htags; simpl.
    + destruct (Py.truthy (QueryDict_get "ingredients" _)); [|discriminate].
      destruct (RecipeViewSet.params_to_int
                  (default "" (QueryDict_get "ingredients"
                                 (query_params request))))
        as [ing_ids|e2] eqn:Hings; simpl; [discriminate|].
      intros [= ->]. split; [|reflexivity].
      destruct (comprehension_error _ _ _ Hings) as (tok & _ & Herr).
      apply int_of_str_error in Herr. eauto.
    + intros [= ->]. split; [|reflexivity].
      destruct (comprehension_error _ _ _ Htags) as (tok & _ & Herr).
      apply int_of_str_error in Herr. eauto.
  - simpl.
    destruct (Py.truthy (QueryDict_get "ingredients" _)); [|discriminate].
    destruct (RecipeViewSet.params_to_int
                (default "" (QueryDict_get "ingredients"
                               (query_params request))))
      as [ing_ids|e2] eqn:Hings; simpl; [discriminate|].
    intros [= ->]. split; [|reflexivity].
    destruct (comprehension_error _ _ _ Hings) as (tok & _ & Herr).
    apply int_of_str_error in Herr. eauto.
Qed.

(** X5.  [RecipeViewSet.get_queryset] raises exactly when the value of
    [tags] or of [ingredients] is not empty and has a piece that is not
    an integer literal; what it raises is always a [ValueError], and it
    does not depend on the stored rows. *)
Theorem get_queryset_raises_iff (request : Request) (db : Database) :
  (raises (RecipeViewSet.get_queryset request db) ↔
     has_non_integer_token request "tags" ∨
     has_non_integer_token request "ingredients") ∧
  (∀ e, RecipeViewSet.get_queryset request db = Raise e →
     (∃ literal, e = ValueError literal) ∧
     ∀ db', RecipeViewSet.get_queryset request db' = Raise e).
Proof.
  split.
  - split.
    + intros Hraises.
      destruct (parameter_cases request "tags") as [[tags Ht]|Ht]; [|by left].
      destruct (parameter_cases request "ingredients") as [[ings Hi]|Hi];
        [|by right].
      rewrite (get_queryset_holds _ _ _ _ Ht Hi) in Hraises. contradiction.
    + intros Hbad.
      assert (∃ key, (key = "tags" ∨ key = "ingredients") ∧
                     has_non_integer_token request key) as (key & Hkey & Htok)
        by (destruct Hbad; eauto).
      destruct (get_queryset_non_integer request db key Hkey Htok)
        as (_ & _ & lit & _ & _ & _ & _ & ->).
      exact I.
  - intros e. apply get_queryset_error.
Qed.

Lemma get_queryset_raises_iff_witness :
  (∃ literal, ValueError "x" = ValueError literal) ∧
  ∀ db', RecipeViewSet.get_queryset
           (mk_request [("ingredients", "7,x")] 1) db'
         = Raise (ValueError "x").
Proof.
  apply (proj2 (get_queryset_raises_iff
                  (mk_request [("ingredients", "7,x")] 1) sample_db)).
  reflexivity.
Defined.

(** X6.  [tags] is converted before [ingredients]: when the conversion
    of [tags] raises, that is the error of the request, whatever
    [ingredients] holds. *)
Theorem tags_converted_first (request : Request) (db : Database)
    (s : string) (e : exn) :
  QueryDict_get "tags" (query_params request) = Some s → s ≠ "" →
  RecipeViewSet.params_to_int s = Raise e →
  RecipeViewSet.get_queryset request db = Raise e.
Proof.
  intros Hget Hne Hraise. unfold RecipeViewSet.get_queryset.
  rewrite Hget. rewrite (proj2 (truthy_true (Some s))) by eauto.
  simpl default. by rewrite Hraise.
Qed.

Lemma tags_converted_first_witness :
  RecipeViewSet.get_queryset
    (mk_request [("ingredients", "oops"); ("tags", "1,first")] 1) sample_db
  = Raise (ValueError "first").
Proof.
  apply (tags_converted_first _ sample_db "1,first").
  - reflexivity.
  - discriminate.
  - reflexivity.
Defined.

(** X7.  The recipe list reads a filter parameter only when its value is
    not empty: two requests of the same user whose [tags] are both
    absent or empty, and whose [ingredients] agree, get the same
    answer (and likewise with the two parameters exchanged). *)
Theorem empty_value_ignored (request1 request2 : Request) (db : Database) :
  user request1 = user request2 →
  (Py.truthy (QueryDict_get "tags" (query_params request1)) = false ∧
   Py.truthy (QueryDict_get "tags" (query_params request2)) = false ∧
   QueryDict_get "ingredients" (query_params request1)
     = QueryDict_get "ingredients" (query_params request2)) ∨
  (Py.truthy (QueryDict_get "ingredients" (query_params request1)) = false ∧
   Py.truthy (QueryDict_get "ingredients" (query_params request2)) = false ∧
   QueryDict_get "tags" (query_params request1)
     = QueryDict_get "tags" (query_params request2)) →
  RecipeViewSet.get_queryset request1 db
    = RecipeViewSet.get_queryset request2 db.
Proof.
  intros Huser Hparams. unfold RecipeViewSet.get_queryset. rewrite Huser.
  destruct Hparams as [(H1 & H2 & Heq) | (H1 & H2 & Heq)];
    by rewrite H1, H2, Heq.
Qed.

Lemma empty_value_ignored_witness :
  RecipeViewSet.get_queryset
    (mk_request [("tags", ""); ("ingredients", "7")] 1) sample_db
  = RecipeViewSet.get_queryset
      (mk_request [("ingredients", "7")] 1) sample_db.
Proof.
  apply empty_value_ignored; [reflexivity|].
  left. split_and!; reflexivity.
Defined.

(** ** Rows of other users do not matter *)

Lemma filter_all {A} (P : A -> Prop) `{∀ x, Decision (P x)} (l : list A) :
  (∀ x, x ∈ l → P x) → filter P l = l.
Proof.
  induction l as [|a l IH]; intros Hall; [reflexivity|].
  rewrite filter_cons_True by (apply Hall; by apply elem_of_cons; left).
  rewrite IH; [reflexivity|]. intros x Hx. apply Hall. by apply elem_of_cons; right.
Qed.

Lemma filter_none {A} (P : A -> Prop) `{∀ x, Decision (P x)} (l : list A) :
  (∀ x, x ∈ l → ¬ P x) → filter P l = [].
Proof.
  induction l as [|a l IH]; intros Hnone; [reflexivity|].
  rewrite filter_cons_False by (apply Hnone; by apply elem_of_cons; left).
  apply IH. intros x Hx. apply Hnone. by apply elem_of_cons; right.
Qed.

Section selection.
Context {Row : Type} `{EqDecision Row}.
Context (pk : Row -> Z) (side : Link -> Z) (links : list Link).
Context (Q : option Link -> Prop) `{∀ o, Decision (Q o)}.

(** The rows of a queryset that a condition on the joined link keeps. *)
Local Abbreviation selected qs :=
  (fst <$> filter (λ p : Row * option Link, Q p.2)
             (QuerySet.join pk side links qs)).

Lemma selected_cons (x : Row) (qs : list Row) :
  selected (x :: qs) = (selected [x] ++ selected qs)%list.
Proof.
  unfold QuerySet.join. rewrite !bind_cons. simpl (_ ≫= _) at 2.
  rewrite (right_id_L [] (++)%list).
  by rewrite filter_app, fmap_app.
Qed.

Lemma selected_singleton (x y : Row) : y ∈ selected [x] → y = x.
Proof.
  intros ([r o] & -> & Hin)%list_elem_of_fmap.
  apply list_elem_of_filter in Hin as [_ Hin].
  apply elem_of_join in Hin as [Hr _].
  by apply list_elem_of_singleton in Hr.
Qed.

(** Restricting to the rows of a user before or after the selection
    gives the same rows in the same order. *)
Lemma filter_user_selected (owner : Row -> Z) (u : Z) (qs : list Row) :
  QuerySet.filter_user owner u (selected qs)
  = selected (QuerySet.filter_user owner u qs).
Proof.
  unfold QuerySet.filter_user.
  induction qs as [|x qs IH]; [reflexivity|].
  rewrite selected_cons, filter_app, IH.
  destruct (decide (owner x = u)) as [Hown|Hother].
  - rewrite (filter_cons_True _ x qs) by exact Hown.
    rewrite (selected_cons x (filter _ qs)). f_equal.
    apply filter_all. by intros y ->%selected_singleton.
  - rewrite (filter_cons_False _ x qs) by exact Hother.
    rewrite (filter_none _ (selected [x])); [reflexivity|].
    by intros y ->%selected_singleton.
Qed.

End selection.

Lemma filter_user_filter_id_in links ids (u : Z) (qs : list Recipe) :
  QuerySet.filter_user recipe_user u
    (QuerySet.filter_id_in recipe_id link_recipe link_attr links ids qs)
  = QuerySet.filter_id_in recipe_id link_recipe link_attr links ids
      (QuerySet.filter_user recipe_user u qs).
Proof.
  unfold QuerySet.filter_id_in.
  apply (filter_user_selected recipe_id link_recipe links
           (QuerySet.related_id_in link_attr ids)).
Qed.

Lemma filter_user_filter_isnull_false links (u : Z) (qs : list Attr) :
  QuerySet.filter_user attr_user u
    (QuerySet.filter_isnull_false attr_id link_attr links qs)
  = QuerySet.filter_isnull_false attr_id link_attr links
      (QuerySet.filter_user attr_user u qs).
Proof.
  unfold QuerySet.filter_isnull_false.
  apply (filter_user_selected attr_id link_attr links is_Some).
Qed.

(** X8.  The recipe list of a user is a function of the request, of the
    user's own recipes and of the two relations: two databases that
    agree on these give the same answer, row for row, whatever rows
    other users have in them. *)
Theorem recipe_list_isolation (request : Request) (db db' : Database) :
  QuerySet.filter_user recipe_user (user request) (db_recipes db)
    = QuerySet.filter_user recipe_user (user request) (db_recipes db') →
  db_recipe_tags db = db_recipe_tags db' →
  db_recipe_ingredients db = db_recipe_ingredients db' →
  RecipeViewSet.get_queryset request db
    = RecipeViewSet.get_queryset request db'.
Proof.
  intros Hrows Htags Hings.
  unfold RecipeViewSet.get_queryset, RecipeViewSet.queryset.
  rewrite <- Htags, <- Hings.
  destruct (Py.truthy (QueryDict_get "tags" _));
    [destruct (RecipeViewSet.params_to_int
                 (default "" (QueryDict_get "tags" _))); simpl;
       [|reflexivity]|simpl];
    (destruct (Py.truthy (QueryDict_get "ingredients" _));
       [destruct (RecipeViewSet.params_to_int
                    (default "" (QueryDict_get "ingredients" _))); simpl;
          [|reflexivity]|simpl]);
    rewrite ?filter_user_filter_id_in, Hrows; reflexivity.
Qed.

Lemma recipe_list_isolation_witness :
  RecipeViewSet.get_queryset (mk_request [("tags", "1,3")] 1) sample_db
  = RecipeViewSet.get_queryset (mk_request [("tags", "1,3")] 1)
      sample_db_others.
Proof.
  apply recipe_list_isolation; reflexivity.
Defined.

(** X9.  Likewise the tag list and the ingredient list of a user depend
    only on the request, on the user's own rows and on the relation to
    recipes. *)
Theorem attr_list_isolation `{RecipeAttrViewSet}
    (request : Request) (db db' : Database) :
  QuerySet.filter_user attr_user (user request) (attr_queryset db)
    = QuerySet.filter_user attr_user (user request) (attr_queryset db') →
  attr_recipe_links db = attr_recipe_links db' →
  BaseRecipeAttrViewSet.get_queryset request db
    = BaseRecipeAttrViewSet.get_queryset request db'.
Proof.
  intros Hrows Hlinks. unfold BaseRecipeAttrViewSet.get_queryset.
  destruct (Py.int _) as [n|e]; simpl; [|reflexivity].
  rewrite <- Hlinks.
  destruct (Py.bool_of_int n);
    rewrite ?filter_user_filter_isnull_false, Hrows; reflexivity.
Qed.

Lemma attr_list_isolation_witness :
  BaseRecipeAttrViewSet.get_queryset (H := TagViewSet)
    (mk_request [("assigned_only", "1")] 1) sample_db
  = BaseRecipeAttrViewSet.get_queryset (H := TagViewSet)
      (mk_request [("assigned_only", "1")] 1) sample_db_others.
Proof.
  apply attr_list_isolation; reflexivity.
Defined.

(** ** The list as a function of its rows *)

Lemma get_queryset_sorted request db qs :
  RecipeViewSet.get_queryset request db = Ok qs →
  StronglySorted (λ a b, (recipe_id b ≤ recipe_id a)%Z) qs ∧ NoDup qs ∧
  ∀ r, r ∈ qs → r ∈ db_recipes db.
Proof.
  intros Hqs.
  destruct (get_queryset_Ok_holds _ _ _ Hqs) as (tags & ings & Ht & Hi).
  pose proof (λ r, elem_of_get_queryset _ _ _ _ _ r Ht Hi Hqs) as Hmem.
  rewrite (get_queryset_holds _ _ _ _ Ht Hi) in Hqs. injection Hqs as <-.
  split_and!.
  - apply distinct_order_by_desc_sorted; apply _.
  - apply NoDup_distinct.
  - intros r Hr. apply Hmem in Hr. tauto.
Qed.

(** Two answers over a table with unique primary keys that hold the same
    rows are the same list. *)
Lemma same_rows_same_list request1 request2 db qs1 qs2 :
  NoDup (recipe_id <$> db_recipes db) →
  RecipeViewSet.get_queryset request1 db = Ok qs1 →
  RecipeViewSet.get_queryset request2 db = Ok qs2 →
  (∀ r, r ∈ qs1 ↔ r ∈ qs2) →
  qs1 = qs2.
Proof.
  intros Hpk Hqs1 Hqs2 Hsame.
  destruct (get_queryset_sorted _ _ _ Hqs1) as (Hs1 & Hnd1 & Hin1).
  destruct (get_queryset_sorted _ _ _ Hqs2) as (Hs2 & Hnd2 & Hin2).
  apply (StronglySorted_unique_strong
           (λ a b, (recipe_id b ≤ recipe_id a)%Z)); auto.
  - intros a b Ha Hb Hab Hba.
    apply (NoDup_fmap_elem_of_inj recipe_id (db_recipes db)); auto. lia.
  - by apply NoDup_Permutation.
Qed.

(** Goals about membership in lists that are written out. *)
Ltac listed :=
  simpl; intros;
  repeat match goal with
         | H : _ ∈ _ :: _ |- _ => apply elem_of_cons in H as [->|H]
         | H : _ ∈ [] |- _ => by apply elem_of_nil in H
         end;
  repeat first [ by apply elem_of_cons; left | apply elem_of_cons; right ].

Lemma sample_db_unique_ids : NoDup (recipe_id <$> db_recipes sample_db).
Proof.
  apply (bool_decide_unpack _). vm_compute. exact I.
Qed.

(** X10.  With unique primary keys the recipe list is fixed by the rows
    it holds: two requests whose answers hold the same recipes get them
    in the same order. *)
Theorem recipe_list_order_determined (request1 request2 : Request)
    (db : Database) (qs1 qs2 : list Recipe) :
  NoDup (recipe_id <$> db_recipes db) →
  RecipeViewSet.get_queryset request1 db = Ok qs1 →
  RecipeViewSet.get_queryset request2 db = Ok qs2 →
  (∀ r, r ∈ qs1 ↔ r ∈ qs2) →
  qs1 = qs2.
Proof.
  intros Hpk Hqs1 Hqs2 Hsame.
  destruct (get_queryset_sorted _ _ _ Hqs1) as (Hsorted1 & Hnd1 & Hin1).
  destruct (get_queryset_sorted _ _ _ Hqs2) as (Hsorted2 & Hnd2 & Hin2).
  assert (qs1 ≡ₚ qs2) as Hperm by (by apply NoDup_Permutation).
  apply (StronglySorted_unique_strong
           (λ a b, (recipe_id b ≤ recipe_id a)%Z)); auto.
  intros a b Ha Hb Hab Hba.
  apply (NoDup_fmap_elem_of_inj recipe_id (db_recipes db)); auto. lia.
Qed.

Lemma recipe_list_order_determined_witness :
  [mk_recipe 11 1; mk_recipe 10 1] = [mk_recipe 11 1; mk_recipe 10 1].
Proof.
  apply (recipe_list_order_determined
           (mk_request [("tags", "1,3")] 1)
           (mk_request [("tags", "3,2")] 1) sample_db).
  - exact sample_db_unique_ids.
  - vm_compute. reflexivity.
  - vm_compute. reflexivity.
  - tauto.
Defined.

Lemma meets_narrower links asked1 asked2 r :
  narrower asked1 asked2 → meets links asked1 r → meets links asked2 r.
Proof.
  destruct asked2 as [ids2|]; [|done].
  destruct asked1 as [ids1|]; [|done]. simpl.
  intros Hsub (l & Hl & Hside & Hin). exists l. auto.
Qed.

(** X11.  Order and repetition of the ids in a filter parameter do not
    matter: with unique primary keys, two requests of one user whose
    [tags] list the same ids, and whose [ingredients] list the same ids,
    get the same list. *)
Theorem id_spelling_irrelevant (request1 request2 : Request) (db : Database)
    (tags1 tags2 ings1 ings2 : option (list Z)) :
  NoDup (recipe_id <$> db_recipes db) →
  user request1 = user request2 →
  holds_ids request1 "tags" tags1 → holds_ids request2 "tags" tags2 →
  holds_ids request1 "ingredients" ings1 →
  holds_ids request2 "ingredients" ings2 →
  narrower tags1 tags2 → narrower tags2 tags1 →
  narrower ings1 ings2 → narrower ings2 ings1 →
  ∃ qs, RecipeViewSet.get_queryset request1 db = Ok qs ∧
        RecipeViewSet.get_queryset request2 db = Ok qs.
Proof.
  intros Hpk Huser Ht1 Ht2 Hi1 Hi2 Ht12 Ht21 Hi12 Hi21.
  pose proof (get_queryset_holds request1 db _ _ Ht1 Hi1) as Hqs1.
  pose proof (get_queryset_holds request2 db _ _ Ht2 Hi2) as Hqs2.
  eexists. split; [exact Hqs1|]. rewrite Hqs2. f_equal.
  symmetry. apply (same_rows_same_list request1 request2 db); auto.
  intros r.
  rewrite (elem_of_get_queryset _ _ _ _ _ r Ht1 Hi1 Hqs1).
  rewrite (elem_of_get_queryset _ _ _ _ _ r Ht2 Hi2 Hqs2).
  rewrite Huser. split; intros (? & ? & ? & ?); split_and!;
    eauto using meets_narrower.
Qed.

Lemma id_spelling_irrelevant_witness :
  ∃ qs,
    RecipeViewSet.get_queryset (mk_request [("tags", "1,3")] 1) sample_db
      = Ok qs ∧
    RecipeViewSet.get_queryset (mk_request [("tags", "3,1, 3")] 1) sample_db
      = Ok qs.
Proof.
  apply (id_spelling_irrelevant _ _ sample_db
           (Some [1; 3]%Z) (Some [3; 1; 3]%Z) None None).
  - exact sample_db_unique_ids.
  - reflexivity.
  - apply (holds_list _ _ "1,3"); [reflexivity|discriminate|].
    repeat constructor.
  - apply (holds_list _ _ "3,1, 3"); [reflexivity|discriminate|].
    repeat constructor.
  - by apply holds_nothing.
  - by apply holds_nothing.
  - listed.
  - listed.
  - exact I.
  - exact I.
Defined.

(** X12.  Filters only narrow the list: when a request asks no more than
    another request of the same user (a filter left out, or more ids in
    a list), every recipe of its answer is in the answer of the other. *)
Theorem filters_narrow (request1 request2 : Request) (db : Database)
    (tags1 tags2 ings1 ings2 : option (list Z)) :
  user request1 = user request2 →
  holds_ids request1 "tags" tags1 → holds_ids request2 "tags" tags2 →
  holds_ids request1 "ingredients" ings1 →
  holds_ids request2 "ingredients" ings2 →
  narrower tags1 tags2 → narrower ings1 ings2 →
  ∃ qs1 qs2,
    RecipeViewSet.get_queryset request1 db = Ok qs1 ∧
    RecipeViewSet.get_queryset request2 db = Ok qs2 ∧
    ∀ r, r ∈ qs1 → r ∈ qs2.
Proof.
  intros Huser Ht1 Ht2 Hi1 Hi2 Ht Hi.
  pose proof (get_queryset_holds request1 db _ _ Ht1 Hi1) as Hqs1.
  pose proof (get_queryset_holds request2 db _ _ Ht2 Hi2) as Hqs2.
  eexists _, _. split; [exact Hqs1|]. split; [exact Hqs2|].
  intros r.
  rewrite (elem_of_get_queryset _ _ _ _ _ r Ht1 Hi1 Hqs1).
  rewrite (elem_of_get_queryset _ _ _ _ _ r Ht2 Hi2 Hqs2).
  rewrite Huser. intros (? & ? & ? & ?); split_and!;
    eauto using meets_narrower.
Qed.

Lemma filters_narrow_witness :
  ∃ qs1 qs2,
    RecipeViewSet.get_queryset
      (mk_request [("tags", "1"); ("ingredients", "7")] 1) sample_db
      = Ok qs1 ∧
    RecipeViewSet.get_queryset (mk_request [("tags", "1,3")] 1) sample_db
      = Ok qs2 ∧
    ∀ r, r ∈ qs1 → r ∈ qs2.
Proof.
  apply (filters_narrow _ _ sample_db
           (Some [1]%Z) (Some [1; 3]%Z) (Some [7]%Z) None).
  - reflexivity.
  - apply (holds_list _ _ "1"); [reflexivity|discriminate|].
    repeat constructor.
  - apply (holds_list _ _ "1,3"); [reflexivity|discriminate|].
    repeat constructor.
  - apply (holds_list _ _ "7"); [reflexivity|discriminate|].
    repeat constructor.
  - by apply holds_nothing.
  - listed.
  - exact I.
Defined.

(** ** [upload_image] beyond its two branches *)

Lemma get_object_Ok_in request db pk recipe :
  Rest.get_object (RecipeViewSet.get_queryset request db) pk = Ok recipe →
  ∃ qs, RecipeViewSet.get_queryset request db = Ok qs ∧
        recipe ∈ qs ∧ recipe_id recipe = pk.
Proof.
  unfold Rest.get_object. intros (qs & Hqs & Hpick)%bind_Ok.
  destruct (filter _ qs) as [|r [|r' rest]] eqn:Hf; try discriminate.
  injection Hpick as ->.
  assert (recipe ∈ filter (λ r, recipe_id r = pk) qs) as Hin
    by (rewrite Hf; by apply list_elem_of_singleton).
  apply list_elem_of_filter in Hin as [Hpk Hin]. eauto.
Qed.

(** What [get_object] raises. *)
Lemma get_object_error request db pk e :
  Rest.get_object (RecipeViewSet.get_queryset request db) pk = Raise e →
  e = Http404 ∨ e = MultipleObjectsReturned ∨ ∃ literal, e = ValueError literal.
Proof.
  unfold Rest.get_object.
  destruct (RecipeViewSet.get_queryset request db) as [qs|e'] eqn:Hqs; simpl.
  - destruct (filter _ qs) as [|r [|r' rest]]; intros [= <-]; auto.
  - intros [= ->]. right. right.
    by apply get_queryset_error in Hqs as [? _].
Qed.

(** X13.  [upload_image] on a primary key that no recipe of the
    requesting user has (the recipe does not exist, or it belongs to
    somebody else) answers 404 and writes nothing; the payload is not
    looked at. *)
Theorem upload_image_foreign `{Serializers}
    (request : Request) (pk : Z) (db : Database) (qs : list Recipe) :
  RecipeViewSet.get_queryset request db = Ok qs →
  (∀ r, r ∈ db_recipes db → recipe_id r = pk →
        recipe_user r ≠ user request) →
  RecipeViewSet.upload_image request pk db =
    (Returned {| body := Detail "Not found.";
                 status := HTTP_404_NOT_FOUND |}, db, []).
Proof.
  intros Hqs Hforeign.
  destruct (get_queryset_Ok_holds _ _ _ Hqs) as (tags & ings & Ht & Hi).
  unfold RecipeViewSet.upload_image, Rest.get_object. rewrite Hqs. simpl.
  rewrite (filter_none (λ r, recipe_id r = pk) qs); [reflexivity|].
  intros r Hr Hpk.
  apply (elem_of_get_queryset _ _ _ _ _ r Ht Hi Hqs) in Hr
    as (Hin & Huser & _).
  by apply (Hforeign r).
Qed.

Lemma upload_image_foreign_witness :
  RecipeViewSet.upload_image (H := sample_serializers)
    (image_request {[ "image" := Py.Str "cake.png" ]}) 20 sample_db =
    (Returned {| body := Detail "Not found.";
                 status := HTTP_404_NOT_FOUND |}, sample_db, []).
Proof.
  apply (upload_image_foreign (H := sample_serializers)
           (image_request {[ "image" := Py.Str "cake.png" ]}) 20 sample_db
           [mk_recipe 12 1; mk_recipe 11 1; mk_recipe 10 1]).
  - vm_compute. reflexivity.
  - intros r Hr Hpk. unfold sample_db in Hr. simpl in Hr.
    repeat (apply elem_of_cons in Hr as [->|Hr]);
      [discriminate Hpk|discriminate Hpk|discriminate Hpk| |].
    + simpl. lia.
    + by apply elem_of_nil in Hr.
Defined.

(** X14.  The filter parameters of the list are read on the detail route
    too: [upload_image] with a non-integer token in [tags] or
    [ingredients] ends in the uncaught [ValueError], whatever the
    payload, and writes nothing. *)
Theorem upload_image_bad_parameter `{Serializers}
    (request : Request) (pk : Z) (db : Database) (key : string) :
  key = "tags" ∨ key = "ingredients" →
  has_non_integer_token request key →
  ∃ literal,
    RecipeViewSet.upload_image request pk db =
      (Uncaught (ValueError literal), db, []).
Proof.
  intros Hkey Htoken.
  destruct (get_queryset_non_integer request db key Hkey Htoken)
    as (_ & _ & lit & _ & _ & _ & _ & Hqs).
  exists lit. unfold RecipeViewSet.upload_image, Rest.get_object.
  by rewrite Hqs.
Qed.

Lemma upload_image_bad_parameter_witness :
  ∃ literal,
    RecipeViewSet.upload_image (H := sample_serializers)
      {| query_params := [("tags", "abc")]; user := 1;
         data := {[ "image" := Py.Str "cake.png" ]} |} 10 sample_db =
      (Uncaught (ValueError literal), sample_db, []).
Proof.
  apply (upload_image_bad_parameter (H := sample_serializers) _ 10
           sample_db "tags").
  - by left.
  - exists "abc", "abc". split_and!; [reflexivity|discriminate| |exact I].
    by apply list_elem_of_singleton.
Defined.

Lemma save_rows (r : Recipe) (rows : list Recipe) :
  Forall2 (λ old new, recipe_id new = recipe_id old ∧
                      (recipe_id old ≠ recipe_id r → new = old))
    rows ((λ x, if decide (recipe_id x = recipe_id r) then r else x) <$> rows).
Proof.
  induction rows as [|x rows IH]; simpl; constructor; [|exact IH].
  destruct (decide (recipe_id x = recipe_id r)) as [Heq|Hne]; split; auto.
  intros Hne. by destruct Hne.
Qed.

Lemma Forall2_unchanged (pk : Z) (rows : list Recipe) :
  Forall2 (λ old new, recipe_id new = recipe_id old ∧
                      (recipe_id old ≠ pk → new = old)) rows rows.
Proof. induction rows; constructor; auto. Qed.

(** X15.  [upload_image] touches one row at most.  Whatever the request,
    the recipe table afterwards has the same length and, position by
    position, the same primary keys; every row with a primary key other
    than the one of the URL is the row it was; tags, ingredients and the
    two relations are as they were. *)
Theorem upload_image_frame `{Serializers}
    (request : Request) (pk : Z) (db : Database) :
  Forall2 (λ old new, recipe_id new = recipe_id old ∧
                      (recipe_id old ≠ pk → new = old))
    (db_recipes db)
    (db_recipes (RecipeViewSet.upload_image request pk db).1.2) ∧
  db_tags (RecipeViewSet.upload_image request pk db).1.2 = db_tags db ∧
  db_ingredients (RecipeViewSet.upload_image request pk db).1.2
    = db_ingredients db ∧
  db_recipe_tags (RecipeViewSet.upload_image request pk db).1.2
    = db_recipe_tags db ∧
  db_recipe_ingredients (RecipeViewSet.upload_image request pk db).1.2
    = db_recipe_ingredients db.
Proof.
  destruct (Rest.get_object (RecipeViewSet.get_queryset request db) pk)
    as [recipe|e] eqn:Hobj.
  - rewrite (upload_image_found _ _ _ _ Hobj).
    destruct (get_object_Ok _ _ _ _ Hobj) as (_ & Hpk & _).
    destruct (run_validation _ _) as [vd|errors]; simpl.
    + split_and!; try reflexivity.
      rewrite <- Hpk. apply (save_rows (Model.assign vd recipe)).
    + split_and!; try reflexivity. apply Forall2_unchanged.
  - unfold RecipeViewSet.upload_image. rewrite Hobj. simpl.
    split_and!; try reflexivity. apply Forall2_unchanged.
Qed.

(** X16.  [upload_image] writes exactly when it answers 200, and then it
    writes one row; with any other answer the database is the one
    before.  Its answers are 200, 400, 404, or an uncaught exception
    (500). *)
Theorem upload_image_writes_iff_ok `{Serializers}
    (request : Request) (pk : Z) (db : Database) :
  ((RecipeViewSet.upload_image request pk db).2 ≠ [] ↔
     http_status (RecipeViewSet.upload_image request pk db).1.1
       = HTTP_200_OK) ∧
  (length (RecipeViewSet.upload_image request pk db).2 ≤ 1)%nat ∧
  (http_status (RecipeViewSet.upload_image request pk db).1.1 ≠ HTTP_200_OK →
     (RecipeViewSet.upload_image request pk db).1.2 = db) ∧
  http_status (RecipeViewSet.upload_image request pk db).1.1
    ∈ [HTTP_200_OK; HTTP_400_BAD_REQUEST; HTTP_404_NOT_FOUND;
       HTTP_500_INTERNAL_SERVER_ERROR].
Proof.
  destruct (Rest.get_object (RecipeViewSet.get_queryset request db) pk)
    as [recipe|e] eqn:Hobj.
  - rewrite (upload_image_found _ _ _ _ Hobj).
    destruct (run_validation _ _) as [vd|errors]; simpl.
    + split_and!; [split; done | lia | done | listed].
    + split_and!; [split; done | lia | done | listed].
  - unfold RecipeViewSet.upload_image. rewrite Hobj.
    destruct (get_object_error _ _ _ _ Hobj) as [-> | [-> | [lit ->]]]; simpl;
      (split_and!; [split; done | lia | done | listed]).
Qed.

Lemma filter_unique {A} (P : A -> Prop) `{∀ x, Decision (P x)}
    (l : list A) (r : A) :
  NoDup l → r ∈ l → P r → (∀ x, x ∈ l → P x → x = r) → filter P l = [r].
Proof.
  induction l as [|a l IH]; intros Hnd Hr HPr Honly.
  - by apply elem_of_nil in Hr.
  - apply NoDup_cons in Hnd as [Ha Hnd].
    apply elem_of_cons in Hr as [->|Hr].
    + rewrite filter_cons_True by exact HPr. f_equal.
      apply filter_none. intros x Hx HPx.
      apply Ha. rewrite <- (Honly x); [exact Hx| |exact HPx].
      by apply elem_of_cons; right.
    + rewrite filter_cons_False.
      * apply IH; auto. intros x Hx. apply Honly. by apply elem_of_cons; right.
      * intros HPa. apply Ha. rewrite (Honly a); [exact Hr| |exact HPa].
        by apply elem_of_cons; left.
Qed.

(** X17.  With unique primary keys, [get_object] finds every recipe of
    the requesting user by its primary key, provided the filter
    parameters of the request, if any, are well formed and the recipe
    meets them. *)
Theorem get_object_finds (request : Request) (db : Database)
    (tags ings : option (list Z)) (r : Recipe) :
  NoDup (recipe_id <$> db_recipes db) →
  r ∈ db_recipes db → recipe_user r = user request →
  holds_ids request "tags" tags → holds_ids request "ingredients" ings →
  meets (db_recipe_tags db) tags r →
  meets (db_recipe_ingredients db) ings r →
  Rest.get_object (RecipeViewSet.get_queryset request db) (recipe_id r)
    = Ok r.
Proof.
  intros Hpk Hin Huser Ht Hi Hmt Hmi.
  pose proof (get_queryset_holds request db _ _ Ht Hi) as Hqs.
  pose proof (λ x, elem_of_get_queryset _ _ _ _ _ x Ht Hi Hqs) as Hmem.
  unfold Rest.get_object. rewrite Hqs. simpl.
  rewrite (filter_unique (λ x, recipe_id x = recipe_id r) _ r);
    [reflexivity | apply NoDup_distinct | by apply Hmem | reflexivity |].
  intros x Hx Hid. apply Hmem in Hx as (Hx & _).
  by apply (NoDup_fmap_elem_of_inj recipe_id (db_recipes db)).
Qed.

Lemma get_object_finds_witness :
  Rest.get_object
    (RecipeViewSet.get_queryset (mk_request [("tags", "2")] 1) sample_db) 10
  = Ok (mk_recipe 10 1).
Proof.
  apply (get_object_finds (mk_request [("tags", "2")] 1) sample_db
           (Some [2]%Z) None (mk_recipe 10 1)).
  - exact sample_db_unique_ids.
  - unfold sample_db. listed.
  - reflexivity.
  - apply (holds_list _ _ "2"); [reflexivity|discriminate|].
    repeat constructor.
  - by apply holds_nothing.
  - exists (mk_link 10 2). split_and!; [unfold sample_db|reflexivity|]; listed.
  - exact I.
Defined.

Lemma assign_keeps_user attrs r :
  attrs !! "user" = None → recipe_user (Model.assign attrs r) = recipe_user r.
Proof. intros Hnone. unfold Model.assign. simpl. by rewrite Hnone. Qed.

Lemma meets_same_id links asked r r' :
  recipe_id r' = recipe_id r → meets links asked r → meets links asked r'.
Proof.
  intros Hid. destruct asked as [ids|]; [|done].
  intros (l & Hl & Hside & Hin). exists l. rewrite Hid. auto.
Qed.

(** X18.  After [upload_image] answered 200, the saved row is in the
    list that the same request parameters select, where the row it
    replaced was before, as long as the validated data do not carry a
    [user]. *)
Theorem upload_image_then_list `{Serializers}
    (request : Request) (pk : Z) (db : Database) (recipe : Recipe)
    (validated_data : gmap string Py.value) :
  Rest.get_object (RecipeViewSet.get_queryset request db) pk = Ok recipe →
  run_validation RecipeImageSerializer (data request) = Valid validated_data →
  validated_data !! "user" = None →
  ∃ qs qs',
    RecipeViewSet.get_queryset request db = Ok qs ∧ recipe ∈ qs ∧
    RecipeViewSet.get_queryset request
      (RecipeViewSet.upload_image request pk db).1.2 = Ok qs' ∧
    Model.assign validated_data recipe ∈ qs'.
Proof.
  intros Hobj Hvalid Hnouser.
  rewrite (upload_image_found _ _ _ _ Hobj), Hvalid. simpl.
  destruct (get_object_Ok_in _ _ _ _ Hobj) as (qs & Hqs & Hin & Hpk).
  destruct (get_queryset_Ok_holds _ _ _ Hqs) as (tags & ings & Ht & Hi).
  apply (elem_of_get_queryset _ _ _ _ _ recipe Ht Hi Hqs) in Hin as Hrow.
  destruct Hrow as (Hstored & Huser & Hmt & Hmi).
  set (saved := Model.assign validated_data recipe).
  set (db' := Model.save saved db).
  pose proof (get_queryset_holds request db' _ _ Ht Hi) as Hqs'.
  exists qs. eexists. split_and!; [exact Hqs | exact Hin | exact Hqs' |].
  apply (elem_of_get_queryset _ _ _ _ _ saved Ht Hi Hqs'). split_and!.
  - by apply (elem_of_save recipe).
  - unfold saved. by rewrite assign_keeps_user.
  - by apply (meets_same_id _ _ recipe).
  - by apply (meets_same_id _ _ recipe).
Qed.

Lemma upload_image_then_list_witness :
  ∃ qs qs',
    RecipeViewSet.get_queryset
      (image_request {[ "image" := Py.Str "cake.png" ]}) sample_db = Ok qs ∧
    mk_recipe 10 1 ∈ qs ∧
    RecipeViewSet.get_queryset
      (image_request {[ "image" := Py.Str "cake.png" ]})
      (RecipeViewSet.upload_image (H := sample_serializers)
         (image_request {[ "image" := Py.Str "cake.png" ]}) 10 sample_db).1.2
      = Ok qs' ∧
    Model.assign {[ "image" := Py.Str "cake.png" ]} (mk_recipe 10 1) ∈ qs'.
Proof.
  apply (upload_image_then_list (H := sample_serializers)
           (image_request {[ "image" := Py.Str "cake.png" ]}) 10 sample_db).
  - vm_compute. reflexivity.
  - reflexivity.
  - reflexivity.
Defined.

(** ** [BaseRecipeAttrViewSet.get_queryset] beyond the flag values *)

(** X19.  The attribute queryset raises exactly when [assigned_only] is
    given with a value that is not an integer literal; it then raises
    the [ValueError] of that value, whatever rows are stored. *)
Theorem attr_get_queryset_raises_iff `{RecipeAttrViewSet}
    (request : Request) (db : Database) :
  (raises (BaseRecipeAttrViewSet.get_queryset request db) ↔
     ∃ s, QueryDict_get "assigned_only" (query_params request) = Some s ∧
          raises (Py.int_of_str s)) ∧
  (∀ e, BaseRecipeAttrViewSet.get_queryset request db = Raise e →
     QueryDict_get "assigned_only" (query_params request)
       = Some (match e with ValueError literal => literal | _ => "" end) ∧
     (∃ literal, e = ValueError literal) ∧
     ∀ db', BaseRecipeAttrViewSet.get_queryset request db' = Raise e).
Proof.
  unfold BaseRecipeAttrViewSet.get_queryset, QueryDict_get_default.
  destruct (QueryDict_get "assigned_only" (query_params request))
    as [s|] eqn:Hget; simpl.
  - destruct (Py.int_of_str s) as [n|e] eqn:Hint; simpl.
    + split; [split; [contradiction|]|discriminate].
      intros (s' & [= <-] & Hraises). by rewrite Hint in Hraises.
    + apply int_of_str_error in Hint as Heq. subst e. split.
      * split; [|done]. intros _. exists s. by rewrite Hint.
      * intros e [= <-]. split_and!; eauto.
  - split; [split; [contradiction|]|discriminate].
    intros (s' & [=] & _).
Qed.

Lemma attr_get_queryset_raises_iff_witness :
  QueryDict_get "assigned_only" [("assigned_only", "yes")] = Some "yes" ∧
  (∃ literal, ValueError "yes" = ValueError literal) ∧
  ∀ db', BaseRecipeAttrViewSet.get_queryset (H := IngredientViewSet)
           (mk_request [("assigned_only", "yes")] 1) db'
         = Raise (ValueError "yes").
Proof.
  apply (proj2 (attr_get_queryset_raises_iff (H := IngredientViewSet)
                  (mk_request [("assigned_only", "yes")] 1) sample_db)
           (ValueError "yes")).
  reflexivity.
Defined.

(** X20.  The flag only narrows the attribute list: every row that a
    request of a user gets, with whatever [assigned_only], is in the
    list the user gets without the flag. *)
Theorem assigned_only_narrows `{RecipeAttrViewSet}
    (request1 request2 : Request) (db : Database) (qs1 : list Attr) :
  user request1 = user request2 →
  BaseRecipeAttrViewSet.get_queryset request1 db = Ok qs1 →
  QueryDict_get "assigned_only" (query_params request2) = None →
  ∃ qs2, BaseRecipeAttrViewSet.get_queryset request2 db = Ok qs2 ∧
         ∀ a, a ∈ qs1 → a ∈ qs2.
Proof.
  intros Huser Hqs1 Hnone.
  pose proof Hqs1 as (n & Hn & _)%attr_get_queryset_Ok.
  assert (Py.int (QueryDict_get_default "assigned_only" (Py.Int 0)
                    (query_params request2)) = Ok 0%Z) as Hzero
    by (unfold QueryDict_get_default; by rewrite Hnone).
  eexists. split.
  - apply attr_get_queryset_Ok. exists 0%Z. split; [exact Hzero|reflexivity].
  - intros a Ha.
    apply (elem_of_attr_get_queryset request1 db qs1 n a Hn Hqs1) in Ha
      as (Hin & Hown & _).
    apply (elem_of_attr_get_queryset request2 db _ 0 a Hzero).
    + apply attr_get_queryset_Ok. exists 0%Z.
      split; [exact Hzero|reflexivity].
    + rewrite <- Huser. split_and!; auto. discriminate.
Qed.

Lemma assigned_only_narrows_witness :
  ∃ qs2,
    BaseRecipeAttrViewSet.get_queryset (H := TagViewSet)
      (mk_request [] 1) sample_db = Ok qs2 ∧
    ∀ a, a ∈ [ {| attr_id := 1; attr_user := 1; attr_name := "vegan" |};
               {| attr_id := 3; attr_user := 1; attr_name := "quick" |};
               {| attr_id := 2; attr_user := 1; attr_name := "dessert" |} ] →
         a ∈ qs2.
Proof.
  apply (assigned_only_narrows (H := TagViewSet)
           (mk_request [("assigned_only", "1")] 1) (mk_request [] 1)
           sample_db).
  - reflexivity.
  - vm_compute. reflexivity.
  - reflexivity.
Defined.

(** ** The list actions *)

